(** * synthetic-adsb: the bridge (bridge.py) and the synthetic feed (server.py)

    A shallow embedding of the polling bridge and of the synthetic ADS-B
    server, with the properties of the pipeline proved over it.

    Conventions of the embedding.
    - Python floats are read as exact rationals ([Q]); only their order and
      the arithmetic [bridge.py] does on clock readings matter below.
    - A Python value coming out of [resp.json()] is a [pyval].
    - [exn] stands for instances of Python's [Exception]: the failures the
      [except Exception] clauses of the program are about.  The operator's
      stop signal ([KeyboardInterrupt], a [BaseException]) is handled by the
      outermost [try] of [main] and is not a failure of a cycle.
    - The outside world (sockets, HTTP, the duration of each call) is an
      [Env]; one [Env] describes the world during one cycle of the loop.
    - Effects are recorded in a trace of events stamped with the clock. *)

From Stdlib Require Import String List ZArith QArith Qminmax Qround.
From Stdlib Require Import DecimalString Lia Lqa Bool.
Import ListNotations.

Set Warnings "-register-all".
Local Open Scope string_scope.
Local Open Scope Z_scope.

(* ------------------------------------------------------------------ *)
(** ** Python values and exceptions *)

Inductive pyval : Type :=
| PNone
| PBool (b : bool)
| PInt (z : Z)
| PFloat (q : Q)
| PStr (s : string)
| PList (l : list pyval)
| PDict (items : list (string * pyval)).

(** The classes of [Exception] the program can meet.  [ReqConnectTimeout]
    derives from both [ConnectionError] and [Timeout] in [requests]. *)
Inductive exn_class : Type :=
| ReqTimeout | ReqReadTimeout | ReqConnectTimeout | ReqConnectionError
| ReqHTTPError | JSONDecodeError
| KeyError | TypeError | AttributeError | ValueError | OverflowError | OSError
| OtherError.

Record exn : Type := mkExn { exn_cls : exn_class; exn_text : string }.

(** [isinstance(e, requests.exceptions.Timeout)] *)
Definition is_Timeout (c : exn_class) : bool :=
  match c with
  | ReqTimeout | ReqReadTimeout | ReqConnectTimeout => true
  | _ => false
  end.

(** [isinstance(e, requests.exceptions.ConnectionError)] *)
Definition is_ConnectionError (c : exn_class) : bool :=
  match c with
  | ReqConnectionError | ReqConnectTimeout => true
  | _ => false
  end.

Inductive result (A : Type) : Type :=
| Ok (a : A)
| Raise (e : exn).
Arguments Ok {A} a.
Arguments Raise {A} e.

(** [type(v).__name__] *)
Definition py_type_name (v : pyval) : string :=
  match v with
  | PNone => "NoneType"
  | PBool _ => "bool"
  | PInt _ => "int"
  | PFloat _ => "float"
  | PStr _ => "str"
  | PList _ => "list"
  | PDict _ => "dict"
  end.

(** [d.values()]: the values of a dict in insertion order; any other value
    coming out of JSON has no such attribute. *)
Definition py_values (v : pyval) : result (list pyval) :=
  match v with
  | PDict items => Ok (map snd items)
  | _ => Raise (mkExn AttributeError
                  ("'" ++ py_type_name v ++ "' object has no attribute 'values'"))
  end.

Fixpoint assoc (k : string) (items : list (string * pyval)) : option pyval :=
  match items with
  | [] => None
  | (k', v) :: rest => if String.eqb k k' then Some v else assoc k rest
  end.

(** [v[k]] for a string key [k]. *)
Definition py_getitem (v : pyval) (k : string) : result pyval :=
  match v with
  | PDict items =>
      match assoc k items with
      | Some x => Ok x
      | None => Raise (mkExn KeyError ("'" ++ k ++ "'"))
      end
  | PList _ => Raise (mkExn TypeError "list indices must be integers or slices, not str")
  | PStr _ => Raise (mkExn TypeError "string indices must be integers, not 'str'")
  | _ => Raise (mkExn TypeError
                  ("'" ++ py_type_name v ++ "' object is not subscriptable"))
  end.

(** [v is None] *)
Definition is_None (v : pyval) : bool :=
  match v with PNone => true | _ => false end.

(** [str(n)] for an int. *)
Definition str_int (z : Z) : string := NilZero.string_of_int (Z.to_int z).

(* ------------------------------------------------------------------ *)
(** ** Events and the environment *)

Inductive level : Type := INFO | WARNING | ERROR.

Inductive event : Type :=
| EvConnect (host : string) (port : Z) (timeout : Q) (* settimeout + connect_ex + close *)
| EvHttpGet (url : string) (timeout : Q)             (* requests.get(url, timeout=...) *)
| EvAdd (radar_id : string) (delay doppler : pyval)  (* store.add_measurement(...) *)
| EvLog (lv : level) (msg : string)                  (* logger.info / warning / error *)
| EvPrint (s : string)                               (* print(...) *)
| EvSleep (d : Q).                                   (* time.sleep(d) *)

(** A trace: each event with the clock reading at which it was issued. *)
Definition trace : Type := list (Q * event).

(** What [requests.get] hands back: the status code and what [resp.json()]
    will give (the parsed body, or the decoding error). *)
Record Response : Type := mkResponse {
  status_code : Z;
  json_body : result pyval
}.

(** [Response.raise_for_status()] of the [requests] library: it raises
    [HTTPError] for a 4xx (client error) or 5xx (server error) status and
    returns normally for every other status.  The text given to the
    exception here is short for the one [requests] builds from the status,
    the reason and the URL; nothing below depends on it. *)
Definition raise_for_status (r : Response) : result unit :=
  if (400 <=? status_code r) && (status_code r <? 600)
  then Raise (mkExn ReqHTTPError (str_int (status_code r) ++ " Error"))
  else Ok tt.

Record Env : Type := mkEnv {
  socket_new : option exn;                 (* socket.socket(): [None] when it is created *)
  connect_ex : string -> Z -> result Z;    (* errno of the connect on (host, port), or raises *)
  http_get : string -> result Response;    (* requests.get on a URL *)
  latency : event -> Q                     (* how long each call takes *)
}.

(* ------------------------------------------------------------------ *)
(** ** Configuration (bridge.py, lines 28-53) *)

Record Radar : Type := mkRadar { rid : string; lat : Q; lon : Q; alt : Z }.
Record Transmitter : Type := mkTx { tx_lat : Q; tx_lon : Q; tx_alt : Z }.

Definition ADSB_JSON_HOST : string := "http://192.168.0.172:5001".
Definition ADSB_JSON_PATH : string := "/data/aircraft.json".
Definition ADSB2DD_URL : string := "http://192.168.0.219:49155/api/dd".
Definition POLL_RATE_HZ : Q := 1.

Definition rx1 : Radar := mkRadar "rx1" (-349192 # 10000) (1386027 # 10000) 110.
Definition rx2 : Radar := mkRadar "rx2" (-349315 # 10000) (1386967 # 10000) 408.
Definition rx3 : Radar := mkRadar "rx3" (-348414 # 10000) (1387237 # 10000) 230.

Definition RADARS : list Radar := [rx1; rx2; rx3].

Definition TX : Transmitter := mkTx (-349810 # 10000) (1387081 # 10000) 750.
Definition FC_MHZ : Q := 20464 # 100.

(** The host and the port that [ADSB_JSON_HOST] names. *)
Definition feed_host : string := "192.168.0.172".
Definition feed_port : Z := 5001.

(** [loop_delay = 1.0 / POLL_RATE_HZ] (line 134) *)
Definition loop_delay : Q := 1 / POLL_RATE_HZ.

(** How an iteration of [while True] leaves its [try] statement: by falling
    through to the statements after it, or by [continue]. *)
Inductive flow : Type := FallThrough | Continue.

(* ------------------------------------------------------------------ *)
(** ** The bridge *)

Section Bridge.

(** [RadarStore] is imported by bridge.py from the module [radar_store]:
    the store and its [add_measurement] are parameters here.  A call
    returns or raises, and leaves a store behind in both cases. *)
Variable RadarStore : Type.
Variable add_measurement :
  string -> pyval -> pyval -> RadarStore -> result unit * RadarStore.

(** How Python formats a float inside an f-string ([repr]). *)
Variable float_repr : Q -> string.

Record World : Type := mkWorld { clock : Q; store : RadarStore }.

(** A computation runs from a world to a result (a value or a raised
    exception), the world it leaves, and the events it issued. *)
Definition M (A : Type) : Type := World -> result A * World * trace.

Definition ret {A} (a : A) : M A := fun w => (Ok a, w, []).

Definition bind {A B} (m : M A) (f : A -> M B) : M B := fun w =>
  match m w with
  | (Ok a, w1, t1) =>
      match f a w1 with (r, w2, t2) => (r, w2, (t1 ++ t2)%list) end
  | (Raise e, w1, t1) => (Raise e, w1, t1)
  end.

Definition lift {A} (r : result A) : M A := fun w => (r, w, []).

(** [try: m  except Exception as e: h e] *)
Definition try_except {A} (m : M A) (h : exn -> M A) : M A := fun w =>
  match m w with
  | (Raise e, w1, t1) =>
      match h e w1 with (r, w2, t2) => (r, w2, (t1 ++ t2)%list) end
  | done => done
  end.

Notation "x <- m ;; k" := (bind m (fun x => k))
  (at level 100, m at next level, right associativity).
Notation "m ;; k" := (bind m (fun _ => k))
  (at level 100, right associativity).

Fixpoint for_each {A} (l : list A) (f : A -> M unit) : M unit :=
  match l with
  | [] => ret tt
  | a :: rest => f a ;; for_each rest f
  end.

Definition advance (d : Q) (w : World) : World :=
  mkWorld (clock w + d)%Q (store w).

(** An outside call: it is recorded and takes the time the world says. *)
Definition effect (env : Env) (ev : event) : M unit := fun w =>
  (Ok tt, advance (latency env ev) w, [(clock w, ev)]).

Definition time_time : M Q := fun w => (Ok (clock w), w, []).

(** [time.sleep(d)], taken to last [d] on the clock of the model. *)
Definition time_sleep (d : Q) : M unit := fun w =>
  (Ok tt, advance d w, [(clock w, EvSleep d)]).

Definition logger (env : Env) (lv : level) (msg : string) : M unit :=
  effect env (EvLog lv msg).

Definition requests_get (env : Env) (url : string) (timeout : Q) : M Response :=
  effect env (EvHttpGet url timeout) ;; lift (http_get env url).

Definition store_add_measurement (env : Env) (radar_id : string)
    (delay doppler : pyval) : M unit := fun w =>
  let ev := EvAdd radar_id delay doppler in
  match add_measurement radar_id delay doppler (store w) with
  | (r, s) => (r, mkWorld (clock w + latency env ev)%Q s, [(clock w, ev)])
  end.

(** [sock.settimeout(timeout)] for a timeout that is a number.  CPython
    turns the timeout into a count of nanoseconds, rounded away from zero,
    held in a signed 64-bit integer: it raises [OverflowError] when the
    count does not fit (a timeout above about 9.22e9 seconds), and
    [ValueError] when the timeout is negative.  A timeout in [Q] is a finite
    number. *)
Definition settimeout (timeout : Q) : result unit :=
  let ns := (timeout * 1000000000)%Q in
  if Qlt_le_dec (inject_Z (2 ^ 63 - 1)) ns
  then Raise (mkExn OverflowError "timestamp too large to convert to C _PyTime_t")
  else if Qlt_le_dec ns (inject_Z (- 2 ^ 63))
  then Raise (mkExn OverflowError "timestamp too large to convert to C _PyTime_t")
  else if Qlt_le_dec timeout 0
  then Raise (mkExn ValueError "Timeout value out of range")
  else Ok tt.

(** bridge.py, lines 59-69 *)
Definition check_port_open (env : Env) (host : string) (port : Z)
    (timeout : Q) : M bool :=
  try_except
    (lift (match socket_new env with Some e => Raise e | None => Ok tt end) ;;
     lift (settimeout timeout) ;;
     effect env (EvConnect host port timeout) ;;
     result <- lift (connect_ex env host port) ;;
     ret (result =? 0))
    (fun e =>
       logger env ERROR
         ("Error checking port " ++ str_int port ++ " on " ++ host ++ ": "
            ++ exn_text e) ;;
       ret false).

Definition feed_url : string := ADSB_JSON_HOST ++ ADSB_JSON_PATH.

Definition msg_port_closed : string :=
  "Port 5001 is not open on localhost. Is the ADS-B server running?".
Definition msg_timeout : string :=
  "Timeout while fetching ADS-B data. Server might be overloaded or not responding.".
Definition msg_connection : string :=
  "Connection error while fetching ADS-B data. Server might not be running.".
Definition msg_unexpected (e : exn) : string :=
  "Unexpected error while fetching ADS-B data: " ++ exn_text e.

(** The three [except] clauses of [fetch_adsb] (lines 84-92), tried in
    order. *)
Definition fetch_handler (env : Env) (e : exn) : M pyval :=
  if is_Timeout (exn_cls e) then
    logger env ERROR msg_timeout ;; ret PNone
  else if is_ConnectionError (exn_cls e) then
    logger env ERROR msg_connection ;; ret PNone
  else
    logger env ERROR (msg_unexpected e) ;; ret PNone.

(** bridge.py, lines 71-92 *)
Definition fetch_adsb (env : Env) : M pyval :=
  try_except
    (port_open <- check_port_open env "localhost" 5001 1 ;;
     if negb port_open then
       logger env ERROR msg_port_closed ;; ret PNone
     else
       logger env INFO ("Attempting to fetch ADS-B data from " ++ feed_url) ;;
       resp <- requests_get env feed_url 5 ;;
       lift (raise_for_status resp) ;;
       logger env INFO "Successfully fetched ADS-B data" ;;
       lift (json_body resp))
    (fetch_handler env).

(** bridge.py, lines 94-104: [params] is a dict, iterated in insertion
    order. *)
Definition build_adsb2dd_url (radar : Radar) : string :=
  let params :=
    [ ("rx", float_repr (lat radar) ++ "," ++ float_repr (lon radar) ++ ","
               ++ str_int (alt radar));
      ("tx", float_repr (tx_lat TX) ++ "," ++ float_repr (tx_lon TX) ++ ","
               ++ str_int (tx_alt TX));
      ("fc", float_repr FC_MHZ);
      ("server", ADSB_JSON_HOST) ] in
  let qs := String.concat "&" (map (fun kv => fst kv ++ "=" ++ snd kv) params) in
  ADSB2DD_URL ++ "?" ++ qs.

(** bridge.py, lines 106-112 *)
Definition query_adsb2dd_for (env : Env) (radar : Radar) : M pyval :=
  let url := build_adsb2dd_url radar in
  effect env (EvPrint url) ;;
  resp <- requests_get env url 5 ;;
  lift (raise_for_status resp) ;;
  lift (json_body resp).

(** bridge.py, lines 153-157, the body of [for meas in dd.values()]: the
    keyword arguments are evaluated left to right, then the store is
    called. *)
Definition store_entry (env : Env) (radar : Radar) (meas : pyval) : M unit :=
  delay <- lift (py_getitem meas "delay") ;;
  doppler <- lift (py_getitem meas "doppler") ;;
  store_add_measurement env (rid radar) delay doppler.

(** bridge.py, lines 152-157 *)
Definition store_measurements (env : Env) (radar : Radar) (dd : pyval) : M unit :=
  values <- lift (py_values dd) ;;
  for_each values (store_entry env radar).

(** bridge.py, lines 150-159: the body of [for radar in RADARS] *)
Definition process_radar (env : Env) (radar : Radar) : M unit :=
  try_except
    (dd <- query_adsb2dd_for env radar ;;
     store_measurements env radar dd)
    (fun e =>
       logger env ERROR
         ("Error processing radar " ++ rid radar ++ ": " ++ exn_text e)).

Definition msg_skip : string :=
  "Skipping this iteration due to failed ADS-B data fetch".

(** bridge.py, lines 141-159: what the inner [try] of the loop protects. *)
Definition cycle_body (env : Env) : M flow :=
  adsb_data <- fetch_adsb env ;;
  if is_None adsb_data then
    logger env WARNING msg_skip ;;
    time_sleep loop_delay ;;
    ret Continue
  else
    for_each RADARS (process_radar env) ;;
    ret FallThrough.

(** bridge.py, lines 139-168: one iteration of [while True], for any
    statements [body] inside its [try]. *)
Definition iteration_of (env : Env) (body : M flow) : M unit :=
  t_start <- time_time ;;
  fl <- try_except body
          (fun e =>
             logger env ERROR ("Error in main loop: " ++ exn_text e) ;;
             ret FallThrough) ;;
  match fl with
  | Continue => ret tt
  | FallThrough =>
      now <- time_time ;;
      let elapsed := (now - t_start)%Q in
      let to_sleep := (loop_delay - elapsed)%Q in
      if Qlt_le_dec 0 to_sleep then time_sleep to_sleep else ret tt
  end.

Definition loop_iteration (env : Env) : M unit :=
  iteration_of env (cycle_body env).

(** The loop of [main] over the first cycles of a run, one [Env] per
    cycle.  An exception that leaves an iteration leaves the loop. *)
Fixpoint main_loop (envs : list Env) : M unit :=
  match envs with
  | [] => ret tt
  | env :: rest => loop_iteration env ;; main_loop rest
  end.

End Bridge.

Arguments mkWorld {RadarStore} clock store.
Arguments clock {RadarStore} w.
Arguments store {RadarStore} w.
Arguments ret {RadarStore A} a w.
Arguments bind {RadarStore A B} m f w.
Arguments lift {RadarStore A} r w.
Arguments try_except {RadarStore A} m h w.
Arguments for_each {RadarStore A} l f w.
Arguments advance {RadarStore} d w.
Arguments effect {RadarStore} env ev w.
Arguments time_time {RadarStore} w.
Arguments time_sleep {RadarStore} d w.
Arguments logger {RadarStore} env lv msg w.
Arguments requests_get {RadarStore} env url timeout w.
Arguments store_add_measurement {RadarStore} add_measurement env radar_id delay doppler w.
Arguments check_port_open {RadarStore} env host port timeout w.
Arguments fetch_handler {RadarStore} env e w.
Arguments fetch_adsb {RadarStore} env w.
Arguments query_adsb2dd_for {RadarStore} float_repr env radar w.
Arguments store_entry {RadarStore} add_measurement env radar meas w.
Arguments store_measurements {RadarStore} add_measurement env radar dd w.
Arguments process_radar {RadarStore} add_measurement float_repr env radar w.
Arguments cycle_body {RadarStore} add_measurement float_repr env w.
Arguments iteration_of {RadarStore} env body w.
Arguments loop_iteration {RadarStore} add_measurement float_repr env w.
Arguments main_loop {RadarStore} add_measurement float_repr envs w.

(* ------------------------------------------------------------------ *)
(** ** Reading a trace *)

(** The events of a trace that [f] selects, in order. *)
Definition select {B : Type} (f : Q -> event -> option B) (tr : trace) : list B :=
  flat_map (fun te => match f (fst te) (snd te) with Some b => [b] | None => [] end) tr.

(** The probes: (host, port, timeout). *)
Definition connects : trace -> list (string * Z * Q) :=
  select (fun _ ev => match ev with EvConnect h p t => Some (h, p, t) | _ => None end).

(** The HTTP requests: (url, timeout). *)
Definition http_gets : trace -> list (string * Q) :=
  select (fun _ ev => match ev with EvHttpGet u t => Some (u, t) | _ => None end).

(** The calls of [add_measurement]: (radar_id, delay, doppler). *)
Definition adds : trace -> list (string * pyval * pyval) :=
  select (fun _ ev => match ev with EvAdd r d p => Some (r, d, p) | _ => None end).

(** The calls of [add_measurement] for one radar: (delay, doppler). *)
Definition adds_of (radar_id : string) : trace -> list (pyval * pyval) :=
  select (fun _ ev =>
            match ev with
            | EvAdd r d p => if String.eqb r radar_id then Some (d, p) else None
            | _ => None
            end).

Definition prints : trace -> list string :=
  select (fun _ ev => match ev with EvPrint s => Some s | _ => None end).

Definition logs : trace -> list (level * string) :=
  select (fun _ ev => match ev with EvLog lv s => Some (lv, s) | _ => None end).

(** The sleeps: (clock when the sleep starts, duration). *)
Definition sleeps : trace -> list (Q * Q) :=
  select (fun t ev => match ev with EvSleep d => Some (t, d) | _ => None end).

(** What the three steps [requests.get], [raise_for_status] and [json]
    return or raise together, given what [requests.get] does. *)
Definition response_outcome (r : result Response) : result pyval :=
  match r with
  | Raise e => Raise e
  | Ok resp =>
      match raise_for_status resp with
      | Raise e => Raise e
      | Ok _ => json_body resp
      end
  end.

(** What [query_adsb2dd_for] returns or raises, as the world decides it. *)
Definition query_outcome (float_repr : Q -> string) (env : Env) (radar : Radar)
    : result pyval :=
  response_outcome (http_get env (build_adsb2dd_url float_repr radar)).

(** The sleep step as the specification words it: the loop sleeps for
    [max(0, period - elapsed)] with [elapsed = now - cycle_start], and does
    not sleep at all once [elapsed] has reached the period.  [t_end] is the
    clock when the iteration is over. *)
Definition period : Q := 1 / POLL_RATE_HZ.

Definition drift_corrected (t_start t_end : Q) (tr : trace) : Prop :=
  match sleeps tr with
  | [] => (period - (t_end - t_start) <= 0)%Q
  | [(now, d)] => (0 < d)%Q /\ (d == Qmax 0 (period - (now - t_start)))%Q
  | _ => False
  end.

(** The failure kinds of a fetch, after the specification. *)
Inductive feed_failure : Type := FeedTimeout | FeedConnectionRefused | FeedMalformed.

(** The kind of a failure, as the [except] clauses of [fetch_adsb] tell
    them apart: the first clause that matches the exception wins. *)
Definition classify (e : exn) : feed_failure :=
  if is_Timeout (exn_cls e) then FeedTimeout
  else if is_ConnectionError (exn_cls e) then FeedConnectionRefused
  else FeedMalformed.

(** What a fetch logs for each kind of failure. *)
Definition failure_log (k : feed_failure) (e : exn) : level * string :=
  match k with
  | FeedTimeout => (ERROR, msg_timeout)
  | FeedConnectionRefused => (ERROR, msg_connection)
  | FeedMalformed => (ERROR, msg_unexpected e)
  end.

(** The value of the [rx] parameter for a radar and of the [tx] parameter:
    latitude, longitude and altitude separated by commas. *)
Definition rx_param (float_repr : Q -> string) (radar : Radar) : string :=
  float_repr (lat radar) ++ "," ++ float_repr (lon radar) ++ "," ++ str_int (alt radar).

Definition tx_param (float_repr : Q -> string) : string :=
  float_repr (tx_lat TX) ++ "," ++ float_repr (tx_lon TX) ++ "," ++ str_int (tx_alt TX).

(** The events a radar's turn may issue after its query: calls of
    [add_measurement] for that radar, and log lines. *)
Definition radar_event (radar_id : string) (ev : event) : bool :=
  match ev with
  | EvAdd r _ _ => String.eqb r radar_id
  | EvLog _ _ => true
  | _ => false
  end.

(** An entry of the geometry answer carries the delay and the Doppler
    [dp]. *)
Definition carries (meas : pyval) (dp : pyval * pyval) : Prop :=
  py_getitem meas "delay" = Ok (fst dp) /\ py_getitem meas "doppler" = Ok (snd dp).

(** The storing as the specification states it for one radar: whenever
    the radar's query succeeds with a mapping, the trace of the cycle holds
    one call of [add_measurement] for the radar per entry of the mapping. *)
Definition stored_once_per_entry (float_repr : Q -> string) (env : Env)
    (radar : Radar) (tr : trace) : Prop :=
  forall items,
    query_outcome float_repr env radar = Ok (PDict items) ->
    length (adds_of (rid radar) tr) = length items.

(** The probe of [fetch_adsb] found port 5001 open on localhost. *)
Definition probe_open (env : Env) : Prop :=
  socket_new env = None /\ connect_ex env "localhost" 5001 = Ok 0.

(* ------------------------------------------------------------------ *)
(** ** Snapshots, entries and log lines *)

(** The fetch gave a snapshot: a value that is not [None]. *)
Definition got_snapshot (r : result pyval) : bool :=
  match r with
  | Ok v => negb (is_None v)
  | Raise _ => false
  end.

(** The delay and the Doppler of the entries that come before the first
    entry lacking one of the two, in order. *)
Fixpoint leading_entries (values : list pyval) : list (pyval * pyval) :=
  match values with
  | [] => []
  | meas :: rest =>
      match py_getitem meas "delay", py_getitem meas "doppler" with
      | Ok d, Ok p => (d, p) :: leading_entries rest
      | _, _ => []
      end
  end.

(** The line [check_port_open] logs when probing raises [e]. *)
Definition msg_probe_error (host : string) (port : Z) (e : exn) : string :=
  "Error checking port " ++ str_int port ++ " on " ++ host ++ ": " ++ exn_text e.

(** The line a radar's turn logs when its query or its storing raises [e]. *)
Definition msg_radar_error (radar : Radar) (e : exn) : string :=
  "Error processing radar " ++ rid radar ++ ": " ++ exn_text e.

(* ------------------------------------------------------------------ *)
(** ** Sample worlds *)

(** Modelled from the spec: [radar_store.RadarStore] is missing from the
    sources.  Per the specification, [add_measurement] appends the
    measurement to the series of a radar registered at startup and fails
    with [UnknownRadar] for any other id, leaving the store unchanged.
    Used for the sample runs only. *)
Definition SeriesStore : Type := list (string * pyval * pyval).

Definition series_add_measurement (radar_id : string) (delay doppler : pyval)
    (s : SeriesStore) : result unit * SeriesStore :=
  if existsb (String.eqb radar_id) (map rid RADARS)
  then (Ok tt, (s ++ [(radar_id, delay, doppler)])%list)
  else (Raise (mkExn OtherError "UnknownRadar"), s).

(** [repr] on the floats of the configuration. *)
Definition config_repr (q : Q) : string :=
  if Qeq_bool q (-349192 # 10000) then "-34.9192"
  else if Qeq_bool q (1386027 # 10000) then "138.6027"
  else if Qeq_bool q (-349315 # 10000) then "-34.9315"
  else if Qeq_bool q (1386967 # 10000) then "138.6967"
  else if Qeq_bool q (-348414 # 10000) then "-34.8414"
  else if Qeq_bool q (1387237 # 10000) then "138.7237"
  else if Qeq_bool q (-349810 # 10000) then "-34.981"
  else if Qeq_bool q (1387081 # 10000) then "138.7081"
  else if Qeq_bool q (20464 # 100) then "204.64"
  else "nan".

Definition w0 : World SeriesStore := mkWorld 0%Q [].

Definition sample_snapshot : pyval :=
  PDict [("now", PFloat 1700000000%Q); ("aircraft", PList [])].

Definition sample_meas : pyval :=
  PDict [("timestamp", PInt 1700000000); ("delay", PFloat (123 # 10));
         ("doppler", PFloat (-45 # 10))].

Definition sample_dd : pyval := PDict [("AEF123", sample_meas)].

(** Every call takes a tenth of a second. *)
Definition tenth (_ : event) : Q := 1 # 10.

(** Feed and geometry service both answer. *)
Definition env_ok : Env :=
  mkEnv None (fun _ _ => Ok 0)
    (fun url => if String.eqb url feed_url
                then Ok (mkResponse 200 (Ok sample_snapshot))
                else Ok (mkResponse 200 (Ok sample_dd)))
    tenth.

(** Nothing listens on localhost:5001; the probe takes half a second. *)
Definition env_port_closed : Env :=
  mkEnv None (fun _ _ => Ok 111)
    (fun _ => Raise (mkExn ReqConnectionError "connection refused"))
    (fun ev => match ev with EvConnect _ _ _ => 1 # 2 | _ => 0%Q end).

(** Port 5001 is open on localhost, the configured feed host is down. *)
Definition env_feed_host_down : Env :=
  mkEnv None
    (fun host _ => if String.eqb host "localhost" then Ok 0 else Ok 111)
    (fun _ => Raise (mkExn ReqConnectionError "connection refused"))
    tenth.

(** The feed answers 300 Multiple Choices with a JSON body. *)
Definition env_feed_300 : Env :=
  mkEnv None (fun _ _ => Ok 0)
    (fun _ => Ok (mkResponse 300 (Ok sample_snapshot)))
    tenth.

(** The feed request times out. *)
Definition env_feed_timeout : Env :=
  mkEnv None (fun _ _ => Ok 0)
    (fun _ => Raise (mkExn ReqReadTimeout "read timed out"))
    tenth.

(** The geometry service answers rx1 with two entries, the first of which
    carries no delay; rx2 gets a 500; rx3 gets one good entry. *)
Definition env_rx1_bad_entry : Env :=
  mkEnv None (fun _ _ => Ok 0)
    (fun url =>
       if String.eqb url feed_url then Ok (mkResponse 200 (Ok sample_snapshot))
       else if String.eqb url (build_adsb2dd_url config_repr rx1)
       then Ok (mkResponse 200 (Ok (PDict [("A", PDict []); ("B", sample_meas)])))
       else if String.eqb url (build_adsb2dd_url config_repr rx2)
       then Ok (mkResponse 500 (Raise (mkExn JSONDecodeError "Expecting value")))
       else Ok (mkResponse 200 (Ok sample_dd)))
    tenth.

(** The geometry service answers rx2 with a JSON list instead of a
    mapping. *)
Definition env_rx2_list : Env :=
  mkEnv None (fun _ _ => Ok 0)
    (fun url =>
       if String.eqb url feed_url then Ok (mkResponse 200 (Ok sample_snapshot))
       else if String.eqb url (build_adsb2dd_url config_repr rx2)
       then Ok (mkResponse 200 (Ok (PList [sample_meas])))
       else Ok (mkResponse 200 (Ok sample_dd)))
    tenth.

(** The feed answers 200 with the JSON body [null]. *)
Definition env_feed_null : Env :=
  mkEnv None (fun _ _ => Ok 0)
    (fun _ => Ok (mkResponse 200 (Ok PNone)))
    tenth.

(** The geometry service answers rx1 with three entries, the second of
    which carries no Doppler. *)
Definition env_rx1_second_bad : Env :=
  mkEnv None (fun _ _ => Ok 0)
    (fun url =>
       if String.eqb url feed_url then Ok (mkResponse 200 (Ok sample_snapshot))
       else if String.eqb url (build_adsb2dd_url config_repr rx1)
       then Ok (mkResponse 200
                  (Ok (PDict [("A", sample_meas);
                              ("B", PDict [("delay", PFloat (1 # 2))]);
                              ("C", sample_meas)])))
       else Ok (mkResponse 200 (Ok sample_dd)))
    tenth.

(** One iteration of the loop in each sample world, from [w0]. *)
Definition run_ok : result unit * World SeriesStore * trace :=
  loop_iteration series_add_measurement config_repr env_ok w0.

Definition run_port_closed : result unit * World SeriesStore * trace :=
  loop_iteration series_add_measurement config_repr env_port_closed w0.

Definition run_rx1_bad_entry : result unit * World SeriesStore * trace :=
  loop_iteration series_add_measurement config_repr env_rx1_bad_entry w0.

(* ------------------------------------------------------------------ *)
(** ** The synthetic feed (server.py) *)

Module Server.

Definition TX_LAT : Q := -349810 # 10000.
Definition TX_LON : Q := 1387081 # 10000.
Definition TX_ALT : Z := 750.
Definition FC_MHZ : Q := 20464 # 100.
Definition RADIUS_DEG : Q := 5 # 100.
Definition ANGULAR_SPEED : Q := 1 # 100.
Definition ALT_BARO_FT : Z := 30000.
Definition ICAO_HEX : string := "AEF123".
Definition HOST : string := "0.0.0.0".
Definition PORT : Z := 5001.

(** Python's [x % y] on floats: the result has the sign of [y]. *)
Definition float_mod (x y : Q) : Q := (x - y * inject_Z (Qfloor (x / y)))%Q.

(** Round to the nearest integer, ties to even. *)
Definition round_half_even (y : Q) : Z :=
  let f := Qfloor y in
  match ((y - inject_Z f) ?= (1 # 2))%Q with
  | Lt => f
  | Gt => f + 1
  | Eq => if Z.even f then f else f + 1
  end.

(** [round(x, ndigits)] for [ndigits >= 0], on the float read as an exact
    rational. *)
Definition round_ndigits (x : Q) (ndigits : Z) : Q :=
  (inject_Z (round_half_even (x * inject_Z (10 ^ ndigits))) / inject_Z (10 ^ ndigits))%Q.

(** What the server answers to a GET: a status, and a JSON body if any. *)
Record Reply : Type := mkReply { reply_status : Z; reply_json : option pyval }.

Section Handler.

(** [math.pi], [math.cos] and [math.sin], read over the rationals. *)
Variable math_pi : Q.
Variable math_cos : Q -> Q.
Variable math_sin : Q -> Q.

(** server.py, lines 57-82; [now] is the reading of [time.time()]. *)
Definition serve_synthetic_adsb (now : Q) : pyval :=
  let theta := float_mod (now * ANGULAR_SPEED) (2 * math_pi) in
  let lat := (TX_LAT + RADIUS_DEG * math_cos theta)%Q in
  let lon := (TX_LON + RADIUS_DEG * math_sin theta)%Q in
  let aircraft :=
    PDict [ ("hex", PStr ICAO_HEX);
            ("lat", PFloat (round_ndigits lat 6));
            ("lon", PFloat (round_ndigits lon 6));
            ("alt_baro", PInt ALT_BARO_FT);
            ("alt_geom", PInt (ALT_BARO_FT + 100));
            ("flight", PStr "SYN001  ");
            ("seen_pos", PInt 0) ] in
  PDict [ ("now", PFloat now); ("aircraft", PList [aircraft]) ].

(** The Flask application: one route, anything else is not found. *)
Definition app_get (path : string) (now : Q) : Reply :=
  if String.eqb path "/data/aircraft.json"
  then mkReply 200 (Some (serve_synthetic_adsb now))
  else mkReply 404 None.

End Handler.

(** The field names of a record, in order. *)
Definition keys (v : pyval) : option (list string) :=
  match v with
  | PDict items => Some (map fst items)
  | _ => None
  end.

Definition aircraft_fields : list string :=
  ["hex"; "lat"; "lon"; "alt_baro"; "alt_geom"; "flight"; "seen_pos"].

End Server.

(* ------------------------------------------------------------------ *)
(** ** Properties of the bridge *)

Local Open Scope list_scope.

Lemma select_app {B : Type} (f : Q -> event -> option B) (t1 t2 : trace) :
  select f (t1 ++ t2) = select f t1 ++ select f t2.
Proof. unfold select. apply flat_map_app. Qed.

Lemma settimeout_one : settimeout 1 = Ok tt.
Proof. reflexivity. Qed.

Ltac unfold_m :=
  unfold try_except, bind, lift, ret, logger, requests_get, effect,
    time_time, time_sleep.

Section BridgeTheory.

Variable RadarStore : Type.
Variable add_measurement :
  string -> pyval -> pyval -> RadarStore -> result unit * RadarStore.
Variable float_repr : Q -> string.

Implicit Types (env : Env) (w : World RadarStore) (tr : trace).

(** C10. [check_port_open] is total: for every host, port and timeout it
    returns a boolean and raises nothing.  The boolean is [True] exactly
    when the connect attempt is made (the socket is created, the timeout
    accepted) and [connect_ex] returns 0; a non-zero errno and an exception
    raised while probing both give [False].  The store is not touched. *)
Theorem check_port_open_total :
  forall env host port timeout w,
  exists b w' tr,
    check_port_open env host port timeout w = (Ok b, w', tr) /\
    (b = true <->
       socket_new env = None /\ settimeout timeout = Ok tt /\
       connect_ex env host port = Ok 0) /\
    (forall n, connect_ex env host port = Ok n -> n <> 0 -> b = false) /\
    (forall e, connect_ex env host port = Raise e -> b = false) /\
    (forall e, socket_new env = Some e -> b = false) /\
    (forall e, settimeout timeout = Raise e -> b = false) /\
    store w' = store w.
Proof.
  intros env host port timeout w.
  unfold check_port_open. unfold_m.
  destruct (socket_new env) as [e0|] eqn:Hs; simpl.
  - do 3 eexists. split; [reflexivity|].
    repeat split; try congruence; intros; intuition congruence.
  - destruct (settimeout timeout) as [[]|e1] eqn:Ht; simpl.
    + destruct (connect_ex env host port) as [n|e2] eqn:Hc; simpl.
      * do 3 eexists. split; [reflexivity|].
        split; [split|repeat split; try congruence].
        -- intros Hb. apply Z.eqb_eq in Hb. subst. auto.
        -- intros [_ [_ Hn]]. inversion Hn. reflexivity.
        -- intros m Hm Hne. inversion Hm; subst. now apply Z.eqb_neq.
      * do 3 eexists. split; [reflexivity|].
        repeat split; try congruence; intros; intuition congruence.
    + do 3 eexists. split; [reflexivity|].
      repeat split; try congruence; intros; intuition congruence.
Qed.

Ltac fetch_paths env :=
  unfold fetch_adsb, fetch_handler, check_port_open; unfold_m;
  rewrite settimeout_one;
  destruct (socket_new env) as [e0|] eqn:Hsock; simpl;
  [| destruct (connect_ex env "localhost" 5001) as [n|e1] eqn:Hconn; simpl;
     [ destruct (n =? 0) eqn:Hn; simpl;
       [ destruct (http_get env feed_url) as [resp|e2] eqn:Hget; simpl;
         [ unfold raise_for_status;
           destruct ((400 <=? status_code resp) && (status_code resp <? 600)) eqn:Hst;
           simpl;
           [| destruct (json_body resp) as [v|e3] eqn:Hjson; simpl ]
         | ]
       | ]
     | ] ];
  repeat match goal with
         | |- context [is_Timeout ?c] => destruct (is_Timeout c) eqn:?; simpl
         | |- context [is_ConnectionError ?c] =>
             destruct (is_ConnectionError c) eqn:?; simpl
         end.

(** [fetch_adsb] raises nothing; it leaves the store alone, prints nothing,
    stores nothing, does not sleep, and issues at most one HTTP request,
    to the feed, with a timeout of 5 seconds. *)
Lemma fetch_adsb_returns :
  forall env w,
  exists v w' tr,
    fetch_adsb env w = (Ok v, w', tr) /\
    store w' = store w /\
    prints tr = [] /\ adds tr = [] /\ sleeps tr = [] /\
    (forall y, adds_of y tr = []) /\
    (http_gets tr = [] \/ http_gets tr = [(feed_url, 5%Q)]) /\
    (connects tr = [] \/ connects tr = [("localhost", 5001, 1%Q)]) /\
    (http_gets tr <> [] ->
     exists t rest, tr = (t, EvConnect "localhost" 5001 1%Q) :: rest).
Proof.
  intros env w. fetch_paths env;
    do 3 eexists; (split; [reflexivity|]); simpl;
    repeat split; auto; try congruence; eauto.
Qed.

(** When the probe does not find the port open, no HTTP request is made
    and there is no snapshot. *)
Lemma fetch_adsb_probe_closed :
  forall env w, ~ probe_open env ->
  exists w' tr,
    fetch_adsb env w = (Ok PNone, w', tr) /\ http_gets tr = [].
Proof.
  intros env w Hclosed. unfold probe_open in Hclosed.
  fetch_paths env;
    try (do 2 eexists; split; reflexivity);
    exfalso; apply Hclosed; apply Z.eqb_eq in Hn; subst; auto.
Qed.

(** When the probe finds the port open, one request is made; each kind of
    failure is logged with its own message and gives no snapshot, and a
    request without failure gives the parsed body. *)
Lemma fetch_adsb_probe_open :
  forall env w, probe_open env ->
  exists v w' tr,
    fetch_adsb env w = (Ok v, w', tr) /\
    connects tr = [("localhost", 5001, 1%Q)] /\
    http_gets tr = [(feed_url, 5%Q)] /\
    match response_outcome (http_get env feed_url) with
    | Raise e =>
        v = PNone /\ last (logs tr) (INFO, EmptyString) = failure_log (classify e) e
    | Ok v' => v = v'
    end.
Proof.
  intros env w [Hs Hc].
  fetch_paths env; try congruence;
    try (assert (n = 0) by congruence; subst; discriminate);
    do 3 eexists; (split; [reflexivity|]); simpl;
    unfold response_outcome, failure_log, classify, raise_for_status;
    rewrite ?Hget; simpl; rewrite ?Hst, ?Hjson; simpl;
    repeat match goal with H : _ = _ |- _ => rewrite H end; simpl; eauto 10.
Qed.

Lemma msg_kinds_distinct :
  msg_timeout <> msg_connection /\
  (forall e, msg_unexpected e <> msg_timeout) /\
  (forall e, msg_unexpected e <> msg_connection).
Proof.
  repeat split; intros; unfold msg_unexpected, msg_timeout, msg_connection;
    simpl; discriminate.
Qed.

(** C5 (amended).  [fetch_adsb] bounds its request with a timeout of 5
    seconds and makes it at most once, without retry.  With port 5001 open
    on localhost it makes the request and tells three kinds of failure apart, each with a log
    message of its own: a timeout; a connection error; and a malformed
    response, which is a 4xx or 5xx status or a body that does not parse.
    Each of them gives [None] to the caller.  A status outside 400-599 is
    not a failure of the fetch. *)
Theorem fetch_failure_taxonomy :
  forall env w,
  exists v w' tr,
    fetch_adsb env w = (Ok v, w', tr) /\
    (http_gets tr = [] \/ http_gets tr = [(feed_url, 5%Q)]) /\
    (probe_open env ->
     http_gets tr = [(feed_url, 5%Q)] /\
     (forall e, http_get env feed_url = Raise e ->
        is_Timeout (exn_cls e) = true ->
        v = PNone /\ last (logs tr) (INFO, EmptyString) = (ERROR, msg_timeout)) /\
     (forall e, http_get env feed_url = Raise e ->
        is_Timeout (exn_cls e) = false -> is_ConnectionError (exn_cls e) = true ->
        v = PNone /\ last (logs tr) (INFO, EmptyString) = (ERROR, msg_connection)) /\
     (forall resp, http_get env feed_url = Ok resp ->
        400 <= status_code resp < 600 ->
        v = PNone /\
        exists e, last (logs tr) (INFO, EmptyString) = (ERROR, msg_unexpected e)) /\
     (forall resp e, http_get env feed_url = Ok resp ->
        ~ 400 <= status_code resp < 600 ->
        json_body resp = Raise e -> exn_cls e = JSONDecodeError ->
        v = PNone /\ last (logs tr) (INFO, EmptyString) = (ERROR, msg_unexpected e))) /\
    msg_timeout <> msg_connection /\
    (forall e, msg_unexpected e <> msg_timeout /\ msg_unexpected e <> msg_connection).
Proof.
  intros env w.
  destruct (fetch_adsb_returns env w)
    as (v & w' & tr & Hrun & _ & _ & _ & _ & _ & Hgets & _).
  exists v, w', tr. split; [exact Hrun|]. split; [exact Hgets|].
  destruct msg_kinds_distinct as (Hd1 & Hd2 & Hd3).
  split; [|split; auto].
  intros Hopen.
  destruct (fetch_adsb_probe_open env w Hopen)
    as (v1 & w1 & tr1 & Hrun1 & _ & Hget & Hout).
  rewrite Hrun in Hrun1. inversion Hrun1; subst v1 w1 tr1. clear Hrun1.
  assert (Hin : forall resp, 400 <= status_code resp < 600 ->
                 (400 <=? status_code resp) && (status_code resp <? 600) = true).
  { intros resp Hr. apply andb_true_iff.
    split; [apply Z.leb_le|apply Z.ltb_lt]; lia. }
  assert (Hnotin : forall resp, ~ 400 <= status_code resp < 600 ->
                 (400 <=? status_code resp) && (status_code resp <? 600) = false).
  { intros resp Hr. apply andb_false_iff.
    destruct (Z.leb_spec 400 (status_code resp)); auto.
    right. apply Z.ltb_ge. lia. }
  split; [exact Hget|]. split; [|split; [|split]].
  - intros e He Ht. rewrite He in Hout. simpl in Hout.
    destruct Hout as [Hv Hl]. split; [exact Hv|].
    rewrite Hl. unfold classify. rewrite Ht. reflexivity.
  - intros e He Ht Hc. rewrite He in Hout. simpl in Hout.
    destruct Hout as [Hv Hl]. split; [exact Hv|].
    rewrite Hl. unfold classify. rewrite Ht, Hc. reflexivity.
  - intros resp Hr Hs. rewrite Hr in Hout.
    unfold response_outcome, raise_for_status in Hout.
    rewrite (Hin resp Hs) in Hout.
    destruct Hout as [Hv Hl]. split; [exact Hv|].
    rewrite Hl. unfold classify. simpl. eauto.
  - intros resp e Hr Hs Hj Hcls. rewrite Hr in Hout.
    unfold response_outcome, raise_for_status in Hout.
    rewrite (Hnotin resp Hs), Hj in Hout.
    destruct Hout as [Hv Hl]. split; [exact Hv|].
    rewrite Hl. unfold classify. rewrite Hcls. reflexivity.
Qed.

(** C6.  For every radar the URL sent to the geometry service is the base
    URL followed by the query parameters [rx] (the radar's latitude,
    longitude, altitude), [tx] (the transmitter's), [fc] (the carrier
    frequency in MHz) and [server] (the feed's base URL), in that order;
    what follows the [rx] value is the same text for all radars. *)
Theorem build_adsb2dd_url_shape :
  (forall radar,
     build_adsb2dd_url float_repr radar =
       (ADSB2DD_URL ++ "?rx=" ++ rx_param float_repr radar
          ++ "&tx=" ++ tx_param float_repr
          ++ "&fc=" ++ float_repr FC_MHZ
          ++ "&server=" ++ ADSB_JSON_HOST)%string) /\
  (exists shared : string,
     shared = ("&tx=" ++ tx_param float_repr ++ "&fc=" ++ float_repr FC_MHZ
                 ++ "&server=" ++ ADSB_JSON_HOST)%string /\
     forall radar,
       build_adsb2dd_url float_repr radar =
         (ADSB2DD_URL ++ "?rx=" ++ rx_param float_repr radar ++ shared)%string).
Proof.
  split; [|eexists; split; [reflexivity|]]; intros radar; reflexivity.
Qed.

(** *** One radar's turn *)

Lemma radar_events_select x tr :
  Forall (fun te => radar_event x (snd te) = true) tr ->
  prints tr = [] /\ http_gets tr = [] /\ sleeps tr = [] /\
  forall y, y <> x -> adds_of y tr = [].
Proof.
  induction 1 as [|[t ev] tr Hev _ IH]; [repeat split; reflexivity|].
  destruct IH as (Hp & Hg & Hs & Ha). simpl in Hev.
  unfold prints, http_gets, sleeps, adds_of in *. simpl.
  destruct ev; simpl in *; try discriminate;
    rewrite ?Hp, ?Hg, ?Hs; repeat split; auto; intros y Hy.
  apply String.eqb_eq in Hev. subst radar_id.
  destruct (String.eqb_spec x y); [congruence|]. simpl. auto.
Qed.

Lemma store_entry_events env radar meas w :
  Forall (fun te => radar_event (rid radar) (snd te) = true)
    (snd (store_entry add_measurement env radar meas w)).
Proof.
  unfold store_entry, store_add_measurement. unfold_m.
  destruct (py_getitem meas "delay"); simpl; [|constructor].
  destruct (py_getitem meas "doppler"); simpl; [|constructor].
  destruct (add_measurement _ _ _ _); simpl.
  repeat constructor. simpl. apply String.eqb_refl.
Qed.

Lemma for_each_store_events env radar values :
  forall w,
  Forall (fun te => radar_event (rid radar) (snd te) = true)
    (snd (for_each values (store_entry add_measurement env radar) w)).
Proof.
  induction values as [|meas values IH]; intros w; simpl; [constructor|].
  unfold bind.
  pose proof (store_entry_events env radar meas w) as H1.
  destruct (store_entry add_measurement env radar meas w) as [[[[]|e] w1] t1];
    simpl in *; [|exact H1].
  specialize (IH w1).
  destruct (for_each values _ w1) as [[r w2] t2]. simpl in *.
  apply Forall_app. split; assumption.
Qed.

Lemma store_entry_stores env radar meas dp w :
  carries meas dp ->
  (forall d p st, fst (add_measurement (rid radar) d p st) = Ok tt) ->
  exists w1,
    store_entry add_measurement env radar meas w
    = (Ok tt, w1, [(clock w, EvAdd (rid radar) (fst dp) (snd dp))]).
Proof.
  intros [Hd Hp] Hadd.
  unfold store_entry, store_add_measurement. unfold_m.
  rewrite Hd, Hp. simpl.
  pose proof (Hadd (fst dp) (snd dp) (store w)) as Hok.
  destruct (add_measurement (rid radar) (fst dp) (snd dp) (store w)) as [r st].
  simpl in Hok. subst r. eexists. reflexivity.
Qed.

(** With well-formed entries and a store that accepts them, every entry
    is stored once, in order. *)
Lemma for_each_store_all env radar values dps :
  Forall2 carries values dps ->
  (forall d p st, fst (add_measurement (rid radar) d p st) = Ok tt) ->
  forall w, exists w' tr,
    for_each values (store_entry add_measurement env radar) w = (Ok tt, w', tr) /\
    adds_of (rid radar) tr = dps.
Proof.
  intros Hc Hadd. induction Hc as [|meas dp values dps Hm _ IH]; intros w.
  - do 2 eexists. split; reflexivity.
  - destruct (store_entry_stores env radar meas dp w Hm Hadd) as [w1 H1].
    destruct (IH w1) as (w' & tr & Hrun & Hads).
    simpl. unfold bind. rewrite H1, Hrun.
    do 2 eexists. split; [reflexivity|].
    unfold adds_of in *. simpl. rewrite String.eqb_refl. simpl.
    rewrite Hads. destruct dp; reflexivity.
Qed.

Lemma query_adsb2dd_for_run env radar w :
  query_adsb2dd_for float_repr env radar w
  = (query_outcome float_repr env radar,
     advance (latency env (EvHttpGet (build_adsb2dd_url float_repr radar) 5%Q))
       (advance (latency env (EvPrint (build_adsb2dd_url float_repr radar))) w),
     [(clock w, EvPrint (build_adsb2dd_url float_repr radar));
      ((clock w + latency env (EvPrint (build_adsb2dd_url float_repr radar)))%Q,
       EvHttpGet (build_adsb2dd_url float_repr radar) 5%Q)]).
Proof.
  unfold query_adsb2dd_for, query_outcome, response_outcome. unfold_m. simpl.
  destruct (http_get env (build_adsb2dd_url float_repr radar)) as [resp|e]; simpl;
    [|reflexivity].
  destruct (raise_for_status resp) as [[]|e]; simpl; [|reflexivity].
  destruct (json_body resp); reflexivity.
Qed.

(** A radar's turn raises nothing, whatever its query and its storing do.
    It prints and requests its own URL once, and touches no other radar's
    series. *)
Lemma process_radar_returns env radar w :
  exists w' tr,
    process_radar add_measurement float_repr env radar w = (Ok tt, w', tr) /\
    prints tr = [build_adsb2dd_url float_repr radar] /\
    http_gets tr = [(build_adsb2dd_url float_repr radar, 5%Q)] /\
    sleeps tr = [] /\
    forall y, y <> rid radar -> adds_of y tr = [].
Proof.
  unfold process_radar, try_except, bind at 1.
  rewrite query_adsb2dd_for_run.
  destruct (query_outcome float_repr env radar) as [dd|e].
  2:{ unfold logger, effect. do 2 eexists. split; [reflexivity|]. repeat split. }
  unfold store_measurements, bind, lift.
  destruct (py_values dd) as [values|e].
  2:{ unfold logger, effect. do 2 eexists. split; [reflexivity|]. repeat split. }
  match goal with |- context [for_each values ?f ?w1] =>
    pose proof (for_each_store_events env radar values w1) as Hev;
    destruct (for_each values f w1) as [[r w2] t2] end.
  simpl in Hev.
  destruct (radar_events_select _ _ Hev) as (Hp & Hg & Hs & Ha).
  destruct r as [[]|e]; unfold logger, effect;
    do 2 eexists; (split; [reflexivity|]);
    unfold prints, http_gets, sleeps, adds_of in *; simpl;
    rewrite ?select_app, ?Hp, ?Hg, ?Hs; simpl; repeat split;
    intros y Hy; rewrite ?select_app, (Ha y Hy); reflexivity.
Qed.

(** When the query gives a mapping whose entries all carry a delay and a
    Doppler, and the store accepts them, the radar's turn stores every
    entry once, in order. *)
Lemma process_radar_stores_all env radar items dps w :
  query_outcome float_repr env radar = Ok (PDict items) ->
  Forall2 carries (map snd items) dps ->
  (forall d p st, fst (add_measurement (rid radar) d p st) = Ok tt) ->
  exists w' tr,
    process_radar add_measurement float_repr env radar w = (Ok tt, w', tr) /\
    adds_of (rid radar) tr = dps.
Proof.
  intros Hq Hc Hadd.
  unfold process_radar, try_except, bind at 1.
  rewrite query_adsb2dd_for_run, Hq.
  unfold store_measurements, bind, lift. simpl py_values. cbv iota beta.
  match goal with |- context [for_each _ ?f ?w1] =>
    destruct (for_each_store_all env radar _ _ Hc Hadd w1) as (w' & tr & Hrun & Hads) end.
  rewrite Hrun. do 2 eexists. split; [reflexivity|].
  unfold adds_of in *. simpl. rewrite Hads. reflexivity.
Qed.

(** *** The fan-out over the radars *)

Local Abbreviation fan_out env rs :=
  (for_each rs (process_radar add_measurement float_repr env)).

Lemma fan_out_returns env rs :
  forall w, exists w' tr,
    fan_out env rs w = (Ok tt, w', tr) /\
    prints tr = map (build_adsb2dd_url float_repr) rs /\
    http_gets tr = map (fun r => (build_adsb2dd_url float_repr r, 5%Q)) rs /\
    sleeps tr = [] /\
    forall y, (forall r, In r rs -> rid r <> y) -> adds_of y tr = [].
Proof.
  induction rs as [|a rs IH]; intros w.
  - do 2 eexists. split; [reflexivity|]. repeat split.
  - destruct (process_radar_returns env a w) as (w1 & t1 & H1 & Hp1 & Hg1 & Hs1 & Ha1).
    destruct (IH w1) as (w2 & t2 & H2 & Hp2 & Hg2 & Hs2 & Ha2).
    simpl. unfold bind. rewrite H1, H2.
    do 2 eexists. split; [reflexivity|].
    unfold prints, http_gets, sleeps, adds_of in *.
    rewrite !select_app, Hp1, Hp2, Hg1, Hg2, Hs1, Hs2. repeat split.
    intros y Hy. rewrite select_app.
    rewrite (Ha1 y), (Ha2 y); [reflexivity| |].
    + intros r Hr. apply Hy. right. exact Hr.
    + intros Heq. apply (Hy a); [left; reflexivity|congruence].
Qed.

(** Whatever happens to the other radars, a radar whose own query and
    storing go through has each of its entries stored once. *)
Lemma fan_out_stores env rs :
  NoDup (map rid rs) ->
  forall radar items dps,
    In radar rs ->
    query_outcome float_repr env radar = Ok (PDict items) ->
    Forall2 carries (map snd items) dps ->
    (forall d p st, fst (add_measurement (rid radar) d p st) = Ok tt) ->
    forall w, adds_of (rid radar) (snd (fan_out env rs w)) = dps.
Proof.
  induction rs as [|a rs IH]; intros Hnd radar items dps Hin Hq Hc Hadd w.
  - destruct Hin.
  - simpl in Hnd. inversion Hnd as [|x l Hnotin Hnd']; subst.
    simpl. unfold bind.
    destruct Hin as [Heq|Hin].
    + subst a.
      destruct (process_radar_stores_all env radar items dps w Hq Hc Hadd)
        as (w1 & t1 & H1 & Ha1).
      destruct (fan_out_returns env rs w1) as (w2 & t2 & H2 & _ & _ & _ & Ha2).
      rewrite H1, H2. simpl. unfold adds_of in *.
      rewrite select_app, Ha1, Ha2, app_nil_r; [reflexivity|].
      intros r Hr Heq. apply Hnotin. rewrite <- Heq. apply in_map. exact Hr.
    + destruct (process_radar_returns env a w) as (w1 & t1 & H1 & _ & _ & _ & Ha1).
      specialize (IH Hnd' radar items dps Hin Hq Hc Hadd w1).
      rewrite H1.
      destruct (for_each rs _ w1) as [[r2 w2] t2]. simpl in *.
      unfold adds_of in *. rewrite select_app, Ha1, IH; [reflexivity|].
      intros Heq. apply Hnotin. rewrite <- Heq. apply in_map. exact Hin.
Qed.

Lemma RADARS_ids_distinct : NoDup (map rid RADARS).
Proof.
  simpl. repeat constructor; simpl; intuition discriminate.
Qed.

Lemma geometry_url_is_not_feed_url radar :
  build_adsb2dd_url float_repr radar <> feed_url.
Proof.
  unfold build_adsb2dd_url, feed_url. simpl. discriminate.
Qed.

(** *** One iteration of the loop *)

Local Abbreviation iteration env := (loop_iteration add_measurement float_repr env).

(** The sleep step of lines 165-168, run from the world [w2] the [try]
    statement leaves, in an iteration started at [t_start]. *)
Lemma iteration_fall_through env (body : M RadarStore flow) w w2 tb :
  body w = (Ok FallThrough, w2, tb) ->
  iteration_of env body w =
    let to_sleep := (loop_delay - (clock w2 - clock w))%Q in
    if Qlt_le_dec 0 to_sleep
    then (Ok tt, advance to_sleep w2, tb ++ [(clock w2, EvSleep to_sleep)])
    else (Ok tt, w2, tb).
Proof.
  intros Hb. unfold iteration_of. unfold_m. rewrite Hb. simpl.
  destruct (Qlt_le_dec 0 (loop_delay - (clock w2 - clock w))); simpl;
    rewrite ?app_nil_r; reflexivity.
Qed.

Lemma iteration_continue env (body : M RadarStore flow) w w2 tb :
  body w = (Ok Continue, w2, tb) ->
  iteration_of env body w = (Ok tt, w2, tb).
Proof.
  intros Hb. unfold iteration_of. unfold_m. rewrite Hb. simpl.
  rewrite app_nil_r. reflexivity.
Qed.

Lemma iteration_handler env (body : M RadarStore flow) w e w2 tb :
  body w = (Raise e, w2, tb) ->
  exists w' tr, iteration_of env body w = (Ok tt, w', tr).
Proof.
  intros Hb. unfold iteration_of. unfold_m. rewrite Hb. simpl.
  match goal with |- context [Qlt_le_dec ?a ?b] => destruct (Qlt_le_dec a b) end;
    do 2 eexists; reflexivity.
Qed.

(** The body of the [try] after a fetch without snapshot. *)
Lemma cycle_body_no_snapshot env w w1 t1 :
  fetch_adsb env w = (Ok PNone, w1, t1) ->
  cycle_body add_measurement float_repr env w =
    (Ok Continue,
     advance loop_delay (advance (latency env (EvLog WARNING msg_skip)) w1),
     t1 ++ [(clock w1, EvLog WARNING msg_skip);
            ((clock w1 + latency env (EvLog WARNING msg_skip))%Q, EvSleep loop_delay)]).
Proof.
  intros Hf. unfold cycle_body, bind at 1. rewrite Hf. simpl.
  unfold_m. simpl. reflexivity.
Qed.

(** The body of the [try] after a fetch with a snapshot. *)
Lemma cycle_body_snapshot env w v w1 t1 :
  fetch_adsb env w = (Ok v, w1, t1) -> is_None v = false ->
  exists w2 t2,
    fan_out env RADARS w1 = (Ok tt, w2, t2) /\
    cycle_body add_measurement float_repr env w = (Ok FallThrough, w2, t1 ++ t2).
Proof.
  intros Hf Hv.
  destruct (fan_out_returns env RADARS w1) as (w2 & t2 & H2 & _).
  exists w2, t2. split; [exact H2|].
  unfold cycle_body, bind at 1. rewrite Hf, Hv.
  unfold bind, ret. rewrite H2. rewrite app_nil_r. reflexivity.
Qed.

Lemma iteration_of_returns env (body : M RadarStore flow) w :
  exists w' tr, iteration_of env body w = (Ok tt, w', tr).
Proof.
  destruct (body w) as [[[fl|e] w2] tb] eqn:Hb.
  - destruct fl.
    + rewrite (iteration_fall_through env body w w2 tb Hb). cbv zeta.
      destruct (Qlt_le_dec 0 (loop_delay - (clock w2 - clock w)));
        do 2 eexists; reflexivity.
    + rewrite (iteration_continue env body w w2 tb Hb). do 2 eexists; reflexivity.
  - exact (iteration_handler env body w e w2 tb Hb).
Qed.

Lemma main_loop_snoc envs :
  forall env w, exists w1 t1 w2 t2,
    main_loop add_measurement float_repr envs w = (Ok tt, w1, t1) /\
    iteration env w1 = (Ok tt, w2, t2) /\
    main_loop add_measurement float_repr (envs ++ [env]) w = (Ok tt, w2, t1 ++ t2).
Proof.
  induction envs as [|e0 envs IH]; intros env w.
  - destruct (iteration_of_returns env (cycle_body add_measurement float_repr env) w)
      as (w2 & t2 & H2).
    exists w, [], w2, t2. split; [reflexivity|]. split; [exact H2|].
    simpl. unfold bind, ret. unfold loop_iteration in *. rewrite H2.
    rewrite app_nil_r. reflexivity.
  - destruct (iteration_of_returns e0 (cycle_body add_measurement float_repr e0) w)
      as (w0' & t0 & H0).
    destruct (IH env w0') as (w1 & t1 & w2 & t2 & Hl & Hi & Hs).
    exists w1, (t0 ++ t1), w2, t2.
    simpl. unfold bind. unfold loop_iteration in *. rewrite H0, Hl, Hs.
    rewrite app_assoc. auto.
Qed.

(** C7.  No failure is fatal.  Whatever the statements inside the [try] of
    an iteration do, raising any exception included, the iteration ends
    normally; and after any number of cycles, with any combination of
    feed-side and geometry-side failures in them, the loop is still running
    and runs the next cycle to its end. *)
Theorem loop_survives_failures :
  (forall env (body : M RadarStore flow) w,
     exists w' tr, iteration_of env body w = (Ok tt, w', tr)) /\
  (forall envs env w, exists w1 t1 w2 t2,
     main_loop add_measurement float_repr envs w = (Ok tt, w1, t1) /\
     iteration env w1 = (Ok tt, w2, t2) /\
     main_loop add_measurement float_repr (envs ++ [env]) w = (Ok tt, w2, t1 ++ t2)).
Proof.
  split.
  - intros env body w. apply iteration_of_returns.
  - intros envs env w. apply main_loop_snoc.
Qed.

(** C2.  When the fetch of a cycle gives no snapshot, the cycle makes no
    geometry query (it prints no URL and requests none of the geometry
    URLs), calls [add_measurement] for no radar and leaves the store as it
    was, logs the warning, sleeps, and ends normally: no exception leaves
    the iteration. *)
Theorem failed_fetch_aborts_cycle :
  forall env w,
    fst (fst (fetch_adsb env w)) = Ok PNone ->
    exists w' tr,
      iteration env w = (Ok tt, w', tr) /\
      prints tr = [] /\
      (forall radar timeout,
         ~ In (build_adsb2dd_url float_repr radar, timeout) (http_gets tr)) /\
      adds tr = [] /\
      store w' = store w /\
      last (logs tr) (INFO, EmptyString) = (WARNING, msg_skip) /\
      (exists t, last tr (0%Q, EvPrint EmptyString) = (t, EvSleep loop_delay)).
Proof.
  intros env w Hnone.
  destruct (fetch_adsb_returns env w)
    as (v & w1 & t1 & Hf & Hst & Hp & Ha & Hs & _ & Hg & _).
  rewrite Hf in Hnone. simpl in Hnone. inversion Hnone; subst v.
  pose proof (cycle_body_no_snapshot env w w1 t1 Hf) as Hb.
  unfold loop_iteration. rewrite (iteration_continue _ _ _ _ _ Hb).
  do 2 eexists. split; [reflexivity|].
  unfold prints, adds, logs, http_gets in *.
  rewrite !select_app, Hp, Ha. simpl. rewrite !app_nil_r.
  split; [reflexivity|]. split; [|split; [reflexivity|split; [exact Hst|split]]].
  - intros radar timeout Hin.
    destruct Hg as [Hg|Hg]; rewrite Hg in Hin; simpl in Hin; [exact Hin|].
    destruct Hin as [Heq|[]].
    apply (geometry_url_is_not_feed_url radar). congruence.
  - rewrite last_last. reflexivity.
  - eexists.
    change [(clock w1, EvLog WARNING msg_skip);
            ((clock w1 + latency env (EvLog WARNING msg_skip))%Q, EvSleep loop_delay)]
      with ([(clock w1, EvLog WARNING msg_skip)]
              ++ [((clock w1 + latency env (EvLog WARNING msg_skip))%Q, EvSleep loop_delay)]).
    rewrite app_assoc, last_last. reflexivity.
Qed.

(** C1 (amended).  In a cycle whose fetch gives a snapshot, the loop
    queries the geometry service once for every configured radar, in
    order.  For each radar whose query succeeds with a mapping in which
    every entry carries a delay and a Doppler, and for which
    [add_measurement] does not raise, [add_measurement] is called exactly
    once per entry; this holds whatever the queries and the storing of the
    other radars do, and the iteration ends normally. *)
Theorem fan_out_isolation :
  forall env w v,
    fst (fst (fetch_adsb env w)) = Ok v -> is_None v = false ->
    exists w' tr,
      iteration env w = (Ok tt, w', tr) /\
      prints tr = map (build_adsb2dd_url float_repr) RADARS /\
      http_gets tr =
        http_gets (snd (fetch_adsb env w))
          ++ map (fun r => (build_adsb2dd_url float_repr r, 5%Q)) RADARS /\
      forall radar items dps,
        In radar RADARS ->
        query_outcome float_repr env radar = Ok (PDict items) ->
        Forall2 carries (map snd items) dps ->
        (forall d p st, fst (add_measurement (rid radar) d p st) = Ok tt) ->
        adds_of (rid radar) tr = dps.
Proof.
  intros env w v Hv Hsome.
  destruct (fetch_adsb_returns env w)
    as (v0 & w1 & t1 & Hf & _ & Hp1 & _ & _ & Ha1 & _).
  rewrite Hf in Hv. simpl in Hv. inversion Hv; subst v0.
  destruct (fan_out_returns env RADARS w1) as (w2 & t2 & H2 & Hp2 & Hg2 & _).
  destruct (cycle_body_snapshot env w v w1 t1 Hf Hsome) as (w2' & t2' & H2' & Hb).
  rewrite H2 in H2'. inversion H2'; subst w2' t2'.
  assert (Hstores : forall radar items dps,
             In radar RADARS ->
             query_outcome float_repr env radar = Ok (PDict items) ->
             Forall2 carries (map snd items) dps ->
             (forall d p st, fst (add_measurement (rid radar) d p st) = Ok tt) ->
             adds_of (rid radar) (t1 ++ t2) = dps).
  { intros radar items dps Hin Hq Hc Hadd.
    pose proof (fan_out_stores env RADARS RADARS_ids_distinct
                  radar items dps Hin Hq Hc Hadd w1) as Hs.
    rewrite H2 in Hs. simpl in Hs.
    unfold adds_of in *. rewrite select_app, Hs.
    rewrite (Ha1 (rid radar)). reflexivity. }
  unfold loop_iteration. rewrite (iteration_fall_through _ _ _ _ _ Hb). cbv zeta.
  rewrite Hf. simpl snd.
  destruct (Qlt_le_dec 0 (loop_delay - (clock w2 - clock w)));
    do 2 eexists; (split; [reflexivity|]);
    unfold prints, http_gets in *;
    rewrite ?select_app, Hp1, Hp2, Hg2; simpl; rewrite ?app_nil_r;
    (split; [reflexivity|]); (split; [reflexivity|]);
    intros radar items dps Hin Hq Hc Hadd;
    unfold adds_of; rewrite ?select_app; simpl; rewrite ?app_nil_r;
    rewrite <- select_app; exact (Hstores radar items dps Hin Hq Hc Hadd).
Qed.

(** C3 (amended).  In a cycle whose fetch gives a snapshot the loop sleeps
    for [max(0, period - elapsed)], with [period = 1 / poll_rate] and
    [elapsed = now - cycle_start]: it sleeps [period - elapsed] when that is
    positive and does not sleep at all otherwise.  In a cycle whose fetch
    gives no snapshot it sleeps for the whole period, whatever the time
    elapsed. *)
Theorem sleep_step_of_iteration :
  forall env w, exists v w' tr,
    fst (fst (fetch_adsb env w)) = Ok v /\
    iteration env w = (Ok tt, w', tr) /\
    period = (1 / POLL_RATE_HZ)%Q /\
    (is_None v = false -> drift_corrected (clock w) (clock w') tr) /\
    (is_None v = true -> exists now, sleeps tr = [(now, period)]).
Proof.
  intros env w.
  destruct (fetch_adsb_returns env w)
    as (v & w1 & t1 & Hf & _ & _ & _ & Hs1 & _).
  destruct (is_None v) eqn:Hv.
  - destruct v; try discriminate.
    pose proof (cycle_body_no_snapshot env w w1 t1 Hf) as Hb.
    exists PNone. do 2 eexists. rewrite Hf.
    unfold loop_iteration. rewrite (iteration_continue _ _ _ _ _ Hb).
    split; [reflexivity|]. split; [reflexivity|]. split; [reflexivity|].
    split; [discriminate|]. intros _.
    unfold sleeps in *. rewrite select_app, Hs1. simpl. eexists. reflexivity.
  - destruct (fan_out_returns env RADARS w1) as (w2 & t2 & H2 & _ & _ & Hs2 & _).
    destruct (cycle_body_snapshot env w v w1 t1 Hf Hv) as (w2' & t2' & H2' & Hb).
    rewrite H2 in H2'. inversion H2'; subst w2' t2'.
    exists v. rewrite Hf.
    unfold loop_iteration. rewrite (iteration_fall_through _ _ _ _ _ Hb). cbv zeta.
    destruct (Qlt_le_dec 0 (loop_delay - (clock w2 - clock w))) as [Hpos|Hneg];
      do 2 eexists; (split; [reflexivity|]); (split; [reflexivity|]);
      (split; [reflexivity|]); (split; [|rewrite Hv; discriminate]); intros _;
      unfold drift_corrected, sleeps in *;
      rewrite ?select_app, Hs1, Hs2; simpl.
    + split; [exact Hpos|]. symmetry. apply Q.max_r.
      apply Qlt_le_weak. exact Hpos.
    + exact Hneg.
Qed.

(** *** The shape of an iteration *)

Lemma logs_app t1 t2 : logs (t1 ++ t2) = logs t1 ++ logs t2.
Proof. unfold logs. apply select_app. Qed.

Lemma adds_of_app y t1 t2 : adds_of y (t1 ++ t2) = adds_of y t1 ++ adds_of y t2.
Proof. unfold adds_of. apply select_app. Qed.

Lemma http_gets_app t1 t2 : http_gets (t1 ++ t2) = http_gets t1 ++ http_gets t2.
Proof. unfold http_gets. apply select_app. Qed.

(** An iteration is a fetch followed either by the warning and the sleep
    of a whole period, or by the fan-out and the drift-corrected sleep. *)
Lemma iteration_cases env w :
  exists v w1 t1,
    fetch_adsb env w = (Ok v, w1, t1) /\
    (forall y, adds_of y t1 = []) /\
    (http_gets t1 = [] \/ http_gets t1 = [(feed_url, 5%Q)]) /\
    ((v = PNone /\
      iteration env w =
        (Ok tt,
         advance loop_delay (advance (latency env (EvLog WARNING msg_skip)) w1),
         t1 ++ [(clock w1, EvLog WARNING msg_skip);
                ((clock w1 + latency env (EvLog WARNING msg_skip))%Q,
                 EvSleep loop_delay)]))
     \/
     (is_None v = false /\
      exists w2 t2,
        fan_out env RADARS w1 = (Ok tt, w2, t2) /\
        cycle_body add_measurement float_repr env w = (Ok FallThrough, w2, t1 ++ t2) /\
        iteration env w =
          (if Qlt_le_dec 0 (loop_delay - (clock w2 - clock w))
           then (Ok tt, advance (loop_delay - (clock w2 - clock w)) w2,
                 (t1 ++ t2) ++ [(clock w2, EvSleep (loop_delay - (clock w2 - clock w)))])
           else (Ok tt, w2, t1 ++ t2)))).
Proof.
  destruct (fetch_adsb_returns env w)
    as (v & w1 & t1 & Hf & _ & _ & _ & _ & Ha & Hg & _).
  exists v, w1, t1. split; [exact Hf|]. split; [exact Ha|]. split; [exact Hg|].
  destruct (is_None v) eqn:Hv.
  - left. destruct v; try discriminate. split; [reflexivity|].
    pose proof (cycle_body_no_snapshot env w w1 t1 Hf) as Hb.
    unfold loop_iteration. apply (iteration_continue _ _ _ _ _ Hb).
  - right. split; [reflexivity|].
    destruct (cycle_body_snapshot env w v w1 t1 Hf Hv) as (w2 & t2 & H2 & Hb).
    exists w2, t2. split; [exact H2|]. split; [exact Hb|].
    unfold loop_iteration. apply (iteration_fall_through _ _ _ _ _ Hb).
Qed.

(** In the trace of a fan-out, the turn of a radar stands between the
    turns of the radars before it and after it, none of which calls
    [add_measurement] for it. *)
Lemma fan_out_split env rs radar :
  In radar rs ->
  forall w, exists w_r tb ta,
    snd (fan_out env rs w)
    = tb ++ snd (process_radar add_measurement float_repr env radar w_r) ++ ta /\
    (NoDup (map rid rs) ->
     adds_of (rid radar) tb = [] /\ adds_of (rid radar) ta = []).
Proof.
  induction rs as [|a rs IH]; intros Hin w; [destruct Hin|].
  destruct (process_radar_returns env a w) as (w1 & t1 & H1 & _ & _ & _ & Ha1).
  destruct Hin as [Heq|Hin].
  - subst a. exists w, [].
    destruct (fan_out_returns env rs w1) as (w2 & t2 & H2 & _ & _ & _ & Ha2).
    exists t2. simpl. unfold bind. rewrite H1, H2. simpl.
    split; [reflexivity|]. intros Hnd. split; [reflexivity|].
    inversion Hnd as [|x l Hnotin _]; subst.
    apply Ha2. intros r Hr Heq. apply Hnotin. rewrite <- Heq. apply in_map. exact Hr.
  - destruct (IH Hin w1) as (w_r & tb & ta & Hsplit & Hnone).
    exists w_r, (t1 ++ tb), ta. simpl. unfold bind. rewrite H1.
    destruct (for_each rs _ w1) as [[r2 w2] t2]. simpl in *.
    rewrite Hsplit, app_assoc. split; [reflexivity|].
    intros Hnd. inversion Hnd as [|x l Hnotin Hnd']; subst.
    destruct (Hnone Hnd') as [Hb Hafter]. split; [|exact Hafter].
    rewrite adds_of_app, Hb, Ha1; [reflexivity|].
    intros Heq. apply Hnotin. rewrite <- Heq. apply in_map. exact Hin.
Qed.

(** What an iteration stores for a radar is what that radar's own turn
    stores, if there is a fan-out at all. *)
Lemma iteration_own_turn env w radar :
  In radar RADARS ->
  exists tb ta,
    adds_of (rid radar) tb = [] /\ adds_of (rid radar) ta = [] /\
    ((got_snapshot (fst (fst (fetch_adsb env w))) = false /\
      snd (iteration env w) = tb ++ ta) \/
     exists w_r,
       snd (iteration env w)
       = tb ++ snd (process_radar add_measurement float_repr env radar w_r) ++ ta).
Proof.
  intros Hin.
  destruct (iteration_cases env w) as (v & w1 & t1 & Hf & Ha & _ & [[Hv Hrun]|[Hv Hrun]]).
  - exists t1, [(clock w1, EvLog WARNING msg_skip);
                ((clock w1 + latency env (EvLog WARNING msg_skip))%Q, EvSleep loop_delay)].
    rewrite Hrun, Hf, Hv. simpl. split; [apply Ha|]. split; [reflexivity|].
    left. split; reflexivity.
  - destruct Hrun as (w2 & t2 & H2 & _ & Hrun).
    destruct (fan_out_split env RADARS radar Hin w1) as (w_r & tb & ta & Hsplit & Hnone).
    destruct (Hnone RADARS_ids_distinct) as [Hb Hafter].
    rewrite H2 in Hsplit. simpl in Hsplit.
    destruct (Qlt_le_dec 0 (loop_delay - (clock w2 - clock w))).
    + exists (t1 ++ tb), (ta ++ [(clock w2, EvSleep (loop_delay - (clock w2 - clock w)))]).
      rewrite Hrun. simpl. rewrite Hsplit.
      split; [rewrite adds_of_app, Ha, Hb; reflexivity|].
      split; [rewrite adds_of_app, Hafter; reflexivity|].
      right. exists w_r. rewrite <- !app_assoc. reflexivity.
    + exists (t1 ++ tb), ta. rewrite Hrun. simpl. rewrite Hsplit.
      split; [rewrite adds_of_app, Ha, Hb; reflexivity|].
      split; [exact Hafter|].
      right. exists w_r. rewrite <- !app_assoc. reflexivity.
Qed.

(** *** What a radar's turn stores *)

Lemma leading_entries_spec values :
  exists n,
    Forall2 carries (firstn n values) (leading_entries values) /\
    (n = length values \/
     exists meas, nth_error values n = Some meas /\ forall dp, ~ carries meas dp).
Proof.
  induction values as [|meas values IH].
  - exists 0%nat. split; [constructor|left; reflexivity].
  - simpl.
    destruct (py_getitem meas "delay") as [d|e] eqn:Hd.
    + destruct (py_getitem meas "doppler") as [p|e] eqn:Hp.
      * destruct IH as (n & Hn & Hstop). exists (S n). split.
        -- constructor; [split; assumption|exact Hn].
        -- destruct Hstop as [Hall|Hstop]; [left; simpl; congruence|right; exact Hstop].
      * exists 0%nat. split; [constructor|]. right. exists meas.
        split; [reflexivity|]. intros dp [_ H]. congruence.
    + exists 0%nat. split; [constructor|]. right. exists meas.
      split; [reflexivity|]. intros dp [H _]. congruence.
Qed.

Lemma for_each_store_leading env radar values :
  (forall d p st, fst (add_measurement (rid radar) d p st) = Ok tt) ->
  forall w,
    adds_of (rid radar)
      (snd (for_each values (store_entry add_measurement env radar) w))
    = leading_entries values.
Proof.
  intros Hadd. induction values as [|meas values IH]; intros w; [reflexivity|].
  simpl. unfold bind at 1.
  unfold store_entry at 1, store_add_measurement. unfold_m.
  destruct (py_getitem meas "delay") as [d|e]; [|reflexivity].
  destruct (py_getitem meas "doppler") as [p|e]; [|reflexivity].
  pose proof (Hadd d p (store w)) as Hok.
  destruct (add_measurement (rid radar) d p (store w)) as [r st].
  simpl in Hok. subst r. cbv iota beta.
  match goal with |- context [for_each values ?f ?w1] =>
    specialize (IH w1); destruct (for_each values f w1) as [[r2 w2] t2] end.
  simpl in IH. simpl. unfold adds_of in *. simpl.
  rewrite String.eqb_refl. simpl. rewrite IH. reflexivity.
Qed.

Lemma process_radar_leading env radar items w :
  query_outcome float_repr env radar = Ok (PDict items) ->
  (forall d p st, fst (add_measurement (rid radar) d p st) = Ok tt) ->
  adds_of (rid radar) (snd (process_radar add_measurement float_repr env radar w))
  = leading_entries (map snd items).
Proof.
  intros Hq Hadd.
  unfold process_radar, try_except, bind at 1.
  rewrite query_adsb2dd_for_run, Hq.
  unfold store_measurements, bind, lift. simpl py_values. cbv iota beta.
  match goal with |- context [for_each ?vs ?f ?w1] =>
    pose proof (for_each_store_leading env radar vs Hadd w1) as Hl;
    destruct (for_each vs f w1) as [[r w2] t2] end.
  simpl in Hl.
  destruct r as [[]|e]; unfold logger, effect; simpl;
    unfold adds_of in *; simpl; rewrite ?select_app; simpl;
    rewrite ?app_nil_r; exact Hl.
Qed.

Lemma process_radar_fails env radar e w :
  query_outcome float_repr env radar = Raise e \/
  (exists dd, query_outcome float_repr env radar = Ok dd /\ py_values dd = Raise e) ->
  adds_of (rid radar) (snd (process_radar add_measurement float_repr env radar w)) = [] /\
  logs (snd (process_radar add_measurement float_repr env radar w))
  = [(ERROR, msg_radar_error radar e)].
Proof.
  intros Hfail.
  assert (Hrun : exists w' t0 t1 t2,
             process_radar add_measurement float_repr env radar w
             = (Ok tt, w',
                [(t0, EvPrint (build_adsb2dd_url float_repr radar));
                 (t1, EvHttpGet (build_adsb2dd_url float_repr radar) 5%Q);
                 (t2, EvLog ERROR (msg_radar_error radar e))])).
  { destruct Hfail as [Hq|(dd & Hq & Hv)];
      unfold process_radar, try_except, bind at 1;
      rewrite query_adsb2dd_for_run, Hq.
    - unfold logger, effect. simpl. do 4 eexists. reflexivity.
    - unfold store_measurements, bind, lift. rewrite Hv.
      unfold logger, effect. simpl. do 4 eexists. reflexivity. }
  destruct Hrun as (w' & t0 & t1 & t2 & Hrun). rewrite Hrun.
  split; reflexivity.
Qed.

(** X2.  In a cycle that has a snapshot, for a configured radar whose query
    succeeds with a mapping and whose measurements the store accepts, the
    calls of [add_measurement] run through the entries of the mapping in
    order, each with the delay and the Doppler of its entry, and stop
    exactly at the first entry that lacks a delay or a Doppler: every entry
    before it is stored once, it and every entry after it are not stored.
    When no entry lacks them, all are stored. *)
Theorem stored_calls_stop_at_first_bad_entry :
  forall env w radar items,
    got_snapshot (fst (fst (fetch_adsb env w))) = true ->
    In radar RADARS ->
    query_outcome float_repr env radar = Ok (PDict items) ->
    (forall d p st, fst (add_measurement (rid radar) d p st) = Ok tt) ->
    exists n,
      Forall2 carries (firstn n (map snd items))
        (adds_of (rid radar) (snd (iteration env w))) /\
      (n = length (map snd items) \/
       exists meas,
         nth_error (map snd items) n = Some meas /\ forall dp, ~ carries meas dp).
Proof.
  intros env w radar items Hsnap Hin Hq Hadd.
  destruct (iteration_own_turn env w radar Hin)
    as (tb & ta & Hb & Ha & [[Hno _]|[w_r Htr]]); [congruence|].
  rewrite Htr, !adds_of_app, Hb, Ha, app_nil_r. simpl.
  rewrite (process_radar_leading env radar items w_r Hq Hadd).
  apply leading_entries_spec.
Qed.

(** X3.  In a cycle that has a snapshot, a configured radar whose request
    raises, whose answer has a body that does not decode, or whose answer
    is not a mapping gets no call of [add_measurement] at all, and the
    exception is logged under that radar's id; a radar whose answer has a
    4xx or 5xx status gets no call either, and an error is logged under
    its id. *)
Theorem failed_turn_stores_nothing :
  forall env w radar,
    got_snapshot (fst (fst (fetch_adsb env w))) = true ->
    In radar RADARS ->
    (forall e,
       http_get env (build_adsb2dd_url float_repr radar) = Raise e \/
       (exists resp,
          http_get env (build_adsb2dd_url float_repr radar) = Ok resp /\
          ~ 400 <= status_code resp < 600 /\ json_body resp = Raise e) \/
       (exists dd,
          query_outcome float_repr env radar = Ok dd /\ py_values dd = Raise e) ->
       adds_of (rid radar) (snd (iteration env w)) = [] /\
       In (ERROR, msg_radar_error radar e) (logs (snd (iteration env w)))) /\
    (forall resp,
       http_get env (build_adsb2dd_url float_repr radar) = Ok resp ->
       400 <= status_code resp < 600 ->
       adds_of (rid radar) (snd (iteration env w)) = [] /\
       exists e, In (ERROR, msg_radar_error radar e) (logs (snd (iteration env w)))).
Proof.
  intros env w radar Hsnap Hin.
  destruct (iteration_own_turn env w radar Hin)
    as (tb & ta & Hb & Ha & [[Hno _]|[w_r Htr]]); [congruence|].
  assert (Hturn : forall e,
             query_outcome float_repr env radar = Raise e \/
             (exists dd, query_outcome float_repr env radar = Ok dd /\
                         py_values dd = Raise e) ->
             adds_of (rid radar) (snd (iteration env w)) = [] /\
             In (ERROR, msg_radar_error radar e) (logs (snd (iteration env w)))).
  { intros e Hfail.
    destruct (process_radar_fails env radar e w_r Hfail) as [Hadds Hlogs].
    rewrite Htr. split.
    - rewrite !adds_of_app, Hb, Ha, Hadds. reflexivity.
    - rewrite !logs_app, Hlogs. apply in_or_app. right. left. reflexivity. }
  split.
  - intros e [Hget|[(resp & Hget & Hst & Hjson)|Hnot]]; apply Hturn.
    + left. unfold query_outcome. rewrite Hget. reflexivity.
    + left. unfold query_outcome, response_outcome, raise_for_status.
      rewrite Hget.
      replace ((400 <=? status_code resp) && (status_code resp <? 600)) with false.
      * exact Hjson.
      * symmetry. apply andb_false_iff.
        destruct (Z.leb_spec 400 (status_code resp)); auto.
        right. apply Z.ltb_ge. lia.
    + right. exact Hnot.
  - intros resp Hget Hst.
    assert (Hq : exists e, query_outcome float_repr env radar = Raise e).
    { unfold query_outcome, response_outcome, raise_for_status. rewrite Hget.
      replace ((400 <=? status_code resp) && (status_code resp <? 600)) with true;
        [eexists; reflexivity|].
      symmetry. apply andb_true_iff. split; [apply Z.leb_le|apply Z.ltb_lt]; lia. }
    destruct Hq as [e Hq]. destruct (Hturn e (or_introl Hq)) as [Hadds Hlog].
    split; [exact Hadds|]. exists e. exact Hlog.
Qed.

(** X4.  Every HTTP request of an iteration carries the timeout of 5
    seconds, and an iteration makes at most one request to the feed and one
    per configured radar. *)
Theorem requests_are_bounded :
  forall env w,
    Forall (fun g => snd g = 5%Q) (http_gets (snd (iteration env w))) /\
    (length (http_gets (snd (iteration env w))) <= 1 + length RADARS)%nat.
Proof.
  intros env w.
  destruct (iteration_cases env w)
    as (v & w1 & t1 & Hf & _ & Hg & [[Hv Hrun]|[Hv Hrun]]).
  - rewrite Hrun. simpl. rewrite http_gets_app.
    change (http_gets [(clock w1, EvLog WARNING msg_skip);
              ((clock w1 + latency env (EvLog WARNING msg_skip))%Q, EvSleep loop_delay)])
      with (@nil (string * Q)).
    rewrite app_nil_r.
    destruct Hg as [Hg|Hg]; rewrite Hg; simpl; split; try lia; repeat constructor.
  - destruct Hrun as (w2 & t2 & H2 & _ & Hrun).
    destruct (fan_out_returns env RADARS w1) as (w2' & t2' & H2' & _ & Hg2 & _).
    rewrite H2 in H2'. inversion H2'; subst w2' t2'.
    assert (Hall : Forall (fun g => snd g = 5%Q) (http_gets (t1 ++ t2)) /\
                   (length (http_gets (t1 ++ t2)) <= 1 + length RADARS)%nat).
    { rewrite http_gets_app, Hg2.
      split.
      - apply Forall_app. split.
        + destruct Hg as [Hg|Hg]; rewrite Hg; repeat constructor.
        + apply Forall_forall. intros g Hin. apply in_map_iff in Hin.
          destruct Hin as (r & Hr & _). subst g. reflexivity.
      - rewrite length_app, length_map.
        destruct Hg as [Hg|Hg]; rewrite Hg; simpl; lia. }
    destruct (Qlt_le_dec 0 (loop_delay - (clock w2 - clock w)));
      rewrite Hrun; simpl; [|exact Hall].
    rewrite http_gets_app.
    change (http_gets [(clock w2, EvSleep (loop_delay - (clock w2 - clock w)))])
      with (@nil (string * Q)).
    rewrite app_nil_r. exact Hall.
Qed.

(** *** The probe and the fetch at their edges *)

(** The timeouts that [settimeout] refuses. *)
Lemma settimeout_refuses timeout :
  (timeout < 0 \/ inject_Z (2 ^ 63 - 1) < timeout * 1000000000)%Q ->
  exists e, settimeout timeout = Raise e.
Proof.
  intros H. unfold settimeout.
  destruct (Qlt_le_dec (inject_Z (2 ^ 63 - 1)) (timeout * 1000000000)) as [|Hfit];
    [eexists; reflexivity|].
  destruct (Qlt_le_dec (timeout * 1000000000) (inject_Z (- 2 ^ 63)));
    [eexists; reflexivity|].
  destruct (Qlt_le_dec timeout 0) as [|Hpos]; [eexists; reflexivity|].
  exfalso. destruct H as [H|H]; lra.
Qed.

(** X7.  [check_port_open] makes at most one connection attempt, and none
    when [settimeout] refuses the timeout (a negative one, or one too large
    for a 64-bit count of nanoseconds); it then returns [False].  It logs
    nothing when [connect_ex] returns, whether the port is open or closed,
    and logs one error line, with the port, the host and the exception,
    when probing raises. *)
Theorem check_port_open_trace :
  forall env host port timeout w,
    (connects (snd (check_port_open env host port timeout w)) = [] \/
     connects (snd (check_port_open env host port timeout w))
     = [(host, port, timeout)]) /\
    ((timeout < 0 \/ inject_Z (2 ^ 63 - 1) < timeout * 1000000000)%Q ->
     connects (snd (check_port_open env host port timeout w)) = [] /\
     fst (fst (check_port_open env host port timeout w)) = Ok false) /\
    (forall n,
       socket_new env = None -> settimeout timeout = Ok tt ->
       connect_ex env host port = Ok n ->
       logs (snd (check_port_open env host port timeout w)) = []) /\
    (forall e,
       socket_new env = Some e \/
       (socket_new env = None /\ settimeout timeout = Ok tt /\
        connect_ex env host port = Raise e) ->
       logs (snd (check_port_open env host port timeout w))
       = [(ERROR, msg_probe_error host port e)]) /\
    (socket_new env = None -> settimeout timeout <> Ok tt ->
     connects (snd (check_port_open env host port timeout w)) = [] /\
     exists e,
       logs (snd (check_port_open env host port timeout w))
       = [(ERROR, msg_probe_error host port e)]).
Proof.
  intros env host port timeout w.
  pose proof (settimeout_refuses timeout) as Hrefuse.
  unfold check_port_open. unfold_m.
  destruct (socket_new env) as [e0|] eqn:Hs; simpl.
  { split; [left; reflexivity|]. split; [intros _; split; reflexivity|].
    split; [intros n Hn; discriminate|].
    split; [|intros Hn; discriminate].
    intros e [He|[He _]]; [|discriminate].
    inversion He; subst. reflexivity. }
  destruct (settimeout timeout) as [[]|e1] eqn:Ht; simpl.
  2:{ split; [left; reflexivity|]. split; [intros _; split; reflexivity|].
      split; [intros n _ Hok; discriminate|].
      split; [|intros _ _; split; [reflexivity|eexists; reflexivity]].
      intros e [He|[_ [He _]]]; discriminate. }
  destruct (connect_ex env host port) as [n|e2] eqn:Hc; simpl.
  - split; [right; reflexivity|].
    split; [intros Hbad; destruct (Hrefuse Hbad); discriminate|].
    split; [reflexivity|].
    split; [|intros _ Hno; exfalso; apply Hno; reflexivity].
    intros e [He|[_ [_ He]]]; discriminate.
  - split; [right; reflexivity|].
    split; [intros Hbad; destruct (Hrefuse Hbad); discriminate|].
    split; [intros n _ _ Hn; discriminate|].
    split; [|intros _ Hno; exfalso; apply Hno; reflexivity].
    intros e [He|[_ [_ He]]]; [discriminate|].
    inversion He; subst. reflexivity.
Qed.

(** X11.  [fetch_adsb] raises nothing, whatever the socket and the HTTP
    calls do: it always returns a value.  It leaves the store alone, prints
    nothing and does not sleep; and when it makes its HTTP request, the
    first thing it did was to probe localhost:5001. *)
Theorem fetch_adsb_never_raises :
  forall env w,
  exists v w' tr,
    fetch_adsb env w = (Ok v, w', tr) /\
    store w' = store w /\
    prints tr = [] /\ adds tr = [] /\ sleeps tr = [] /\
    (http_gets tr <> [] ->
     exists t rest, tr = (t, EvConnect "localhost" 5001 1%Q) :: rest).
Proof.
  intros env w.
  destruct (fetch_adsb_returns env w)
    as (v & w' & tr & Hrun & Hst & Hp & Ha & Hs & _ & _ & _ & Hfirst).
  exists v, w', tr. auto 10.
Qed.

(** X8.  When the probe does not find port 5001 open on localhost (the
    socket cannot be created, [connect_ex] returns a non-zero errno, or it
    raises), [fetch_adsb] makes no HTTP request, logs that the port is not
    open, and returns [None]. *)
Theorem closed_probe_skips_request :
  forall env w,
    ~ probe_open env ->
    fst (fst (fetch_adsb env w)) = Ok PNone /\
    http_gets (snd (fetch_adsb env w)) = [] /\
    last (logs (snd (fetch_adsb env w))) (INFO, EmptyString) = (ERROR, msg_port_closed).
Proof.
  intros env w Hclosed. unfold probe_open in Hclosed.
  fetch_paths env;
    try (repeat split; reflexivity);
    exfalso; apply Hclosed; apply Z.eqb_eq in Hn; subst; auto.
Qed.

(** X9.  A feed that answers with the JSON body [null] is taken for a
    failed fetch although the request went through: [fetch_adsb] logs the
    success and returns [None], and the iteration logs the warning, makes
    no geometry query and stores nothing. *)
Theorem null_body_skips_cycle :
  forall env w resp,
    probe_open env ->
    http_get env feed_url = Ok resp ->
    ~ 400 <= status_code resp < 600 ->
    json_body resp = Ok PNone ->
    logs (snd (iteration env w))
    = [(INFO, ("Attempting to fetch ADS-B data from " ++ feed_url)%string);
       (INFO, "Successfully fetched ADS-B data");
       (WARNING, msg_skip)] /\
    prints (snd (iteration env w)) = [] /\
    adds (snd (iteration env w)) = [] /\
    http_gets (snd (iteration env w)) = [(feed_url, 5%Q)].
Proof.
  intros env w resp [Hs Hc] Hget Hst Hjson.
  assert (Hrange : (400 <=? status_code resp) && (status_code resp <? 600) = false).
  { apply andb_false_iff.
    destruct (Z.leb_spec 400 (status_code resp)); auto.
    right. apply Z.ltb_ge. lia. }
  assert (Hfetch : exists w1 t0 t1 t2 t3,
             fetch_adsb env w
             = (Ok PNone, w1,
                [(t0, EvConnect "localhost" 5001 1%Q);
                 (t1, EvLog INFO ("Attempting to fetch ADS-B data from " ++ feed_url)%string);
                 (t2, EvHttpGet feed_url 5%Q);
                 (t3, EvLog INFO "Successfully fetched ADS-B data")])).
  { unfold fetch_adsb, fetch_handler, check_port_open. unfold_m.
    rewrite settimeout_one, Hs. simpl. rewrite Hc. simpl. rewrite Hget. simpl.
    unfold raise_for_status. rewrite Hrange. simpl. rewrite Hjson. simpl.
    do 5 eexists. reflexivity. }
  destruct Hfetch as (w1 & t0 & t1 & t2 & t3 & Hfetch).
  pose proof (cycle_body_no_snapshot env w w1 _ Hfetch) as Hb.
  unfold loop_iteration. rewrite (iteration_continue _ _ _ _ _ Hb).
  repeat split.
Qed.

End BridgeTheory.

(* ------------------------------------------------------------------ *)
(** ** Sample runs *)

Example build_adsb2dd_url_rx1 :
  build_adsb2dd_url config_repr rx1
  = "http://192.168.0.219:49155/api/dd?rx=-34.9192,138.6027,110&tx=-34.981,138.7081,750&fc=204.64&server=http://192.168.0.172:5001".
Proof. reflexivity. Qed.

Example check_port_open_on_an_open_port :
  fst (fst (check_port_open env_ok "localhost" 5001 1 w0)) = Ok true.
Proof. reflexivity. Qed.

Example check_port_open_with_a_timeout_too_large :
  fst (fst (check_port_open env_ok "localhost" 5001 (inject_Z (2 ^ 63)) w0)) = Ok false
  /\ connects (snd (check_port_open env_ok "localhost" 5001 (inject_Z (2 ^ 63)) w0)) = [].
Proof. split; reflexivity. Qed.

Example run_ok_store :
  store (snd (fst run_ok))
  = [("rx1", PFloat (123 # 10), PFloat (-45 # 10));
     ("rx2", PFloat (123 # 10), PFloat (-45 # 10));
     ("rx3", PFloat (123 # 10), PFloat (-45 # 10))].
Proof. reflexivity. Qed.

Lemma series_store_accepts (radar : Radar) :
  In radar RADARS ->
  forall d p st, fst (series_add_measurement (rid radar) d p st) = Ok tt.
Proof.
  intros Hin d p st. simpl in Hin.
  destruct Hin as [H|[H|[H|[]]]]; subst radar; reflexivity.
Qed.

(** C1, on a sample world: feed and geometry service answer, and the one
    entry of rx1 is stored once. *)
Lemma fan_out_isolation_witness :
  fst (fst (fetch_adsb env_ok w0)) = Ok sample_snapshot /\
  is_None sample_snapshot = false /\
  exists w' tr,
    loop_iteration series_add_measurement config_repr env_ok w0 = (Ok tt, w', tr) /\
    prints tr = map (build_adsb2dd_url config_repr) RADARS /\
    adds_of "rx1" tr = [(PFloat (123 # 10), PFloat (-45 # 10))].
Proof.
  split; [reflexivity|]. split; [reflexivity|].
  destruct (fan_out_isolation SeriesStore series_add_measurement config_repr
              env_ok w0 sample_snapshot eq_refl eq_refl)
    as (w' & tr & Hrun & Hp & _ & Hst).
  exists w', tr. split; [exact Hrun|]. split; [exact Hp|].
  apply (Hst rx1 [("AEF123", sample_meas)]).
  - left. reflexivity.
  - reflexivity.
  - repeat constructor.
  - apply series_store_accepts. left. reflexivity.
Defined.

(** C1, as stated, fails: rx1's query succeeds with a mapping of two
    entries, the first of which has no delay; looking it up raises, the
    handler of rx1's turn logs the error, and [add_measurement] is called
    for neither entry. *)
Lemma fan_out_bad_entry_counterexample :
  fst (fst (fetch_adsb env_rx1_bad_entry w0)) = Ok sample_snapshot /\
  In rx1 RADARS /\
  query_outcome config_repr env_rx1_bad_entry rx1
    = Ok (PDict [("A", PDict []); ("B", sample_meas)]) /\
  adds_of "rx1" (snd run_rx1_bad_entry) = [] /\
  ~ stored_once_per_entry config_repr env_rx1_bad_entry rx1 (snd run_rx1_bad_entry).
Proof.
  split; [reflexivity|]. split; [left; reflexivity|].
  split; [reflexivity|]. split; [reflexivity|].
  intros H. specialize (H [("A", PDict []); ("B", sample_meas)] eq_refl).
  vm_compute in H. discriminate H.
Qed.

(** C2, on a sample world: nothing listens on localhost:5001. *)
Lemma failed_fetch_aborts_cycle_witness :
  fst (fst (fetch_adsb env_port_closed w0)) = Ok PNone /\
  exists w' tr,
    loop_iteration series_add_measurement config_repr env_port_closed w0
      = (Ok tt, w', tr) /\
    prints tr = [] /\ adds tr = [] /\ store w' = store w0.
Proof.
  split; [reflexivity|].
  destruct (failed_fetch_aborts_cycle SeriesStore series_add_measurement config_repr
              env_port_closed w0 eq_refl)
    as (w' & tr & Hrun & Hp & _ & Ha & Hs & _).
  exists w', tr. auto.
Defined.

(** C3, as stated, fails on a failed fetch: the probe of a closed port takes
    half a second, and the loop then sleeps for the whole period of one
    second, not for the half second that is left of it. *)
Lemma failed_fetch_sleep_counterexample :
  fst (fst (fetch_adsb env_port_closed w0)) = Ok PNone /\
  sleeps (snd run_port_closed) = [(1 # 2, 1)%Q] /\
  (Qmax 0 (period - ((1 # 2) - clock w0)) == 1 # 2)%Q /\
  ~ drift_corrected (clock w0) (clock (snd (fst run_port_closed))) (snd run_port_closed).
Proof.
  split; [reflexivity|]. split; [reflexivity|]. split; [reflexivity|].
  unfold drift_corrected.
  change (sleeps (snd run_port_closed)) with [(1 # 2, 1)%Q].
  intros [_ H]. vm_compute in H. discriminate H.
Qed.

(** C4.  In every world the probe of [fetch_adsb] goes to localhost:5001,
    not to the host that [ADSB_JSON_HOST] configures.  With the configured
    feed host unreachable and port 5001 open on localhost, the probe passes
    and the HTTP request to the feed is attempted all the same. *)
Theorem fetch_probe_ignores_feed_host :
  (forall (env : Env) (w : World SeriesStore),
     connects (snd (fetch_adsb env w)) = [] \/
     connects (snd (fetch_adsb env w)) = [("localhost", 5001, 1%Q)]) /\
  ADSB_JSON_HOST = ("http://" ++ feed_host ++ ":" ++ str_int feed_port)%string /\
  connect_ex env_feed_host_down feed_host feed_port = Ok 111 /\
  connects (snd (fetch_adsb env_feed_host_down w0)) = [("localhost", 5001, 1%Q)] /\
  ~ In (feed_host, feed_port, 1%Q) (connects (snd (fetch_adsb env_feed_host_down w0))) /\
  http_gets (snd (fetch_adsb env_feed_host_down w0)) = [(feed_url, 5%Q)].
Proof.
  split.
  { intros env w.
    destruct (fetch_adsb_returns SeriesStore env w)
      as (v & w' & tr & Hrun & _ & _ & _ & _ & _ & _ & Hc & _).
    rewrite Hrun. exact Hc. }
  split; [reflexivity|].
  split; [reflexivity|]. split; [reflexivity|]. split; [|reflexivity].
  vm_compute. intros [H|[]]. discriminate H.
Qed.

(** C5, on a sample world: the request to the feed times out. *)
Lemma fetch_failure_taxonomy_witness :
  probe_open env_feed_timeout /\
  exists v w' tr,
    fetch_adsb env_feed_timeout w0 = (Ok v, w', tr) /\
    http_gets tr = [(feed_url, 5%Q)] /\
    v = PNone /\ last (logs tr) (INFO, EmptyString) = (ERROR, msg_timeout).
Proof.
  assert (Hopen : probe_open env_feed_timeout) by (split; reflexivity).
  split; [exact Hopen|].
  destruct (fetch_failure_taxonomy SeriesStore env_feed_timeout w0)
    as (v & w' & tr & Hrun & _ & Hkinds & _).
  destruct (Hkinds Hopen) as (Hg & Ht & _).
  exists v, w', tr. split; [exact Hrun|]. split; [exact Hg|].
  apply (Ht (mkExn ReqReadTimeout "read timed out")); reflexivity.
Defined.

(** C5, as stated, fails on a status that is neither 2xx nor 4xx/5xx: the
    feed answers 300 with a body that parses, [raise_for_status] lets it
    pass, and the fetch returns the body as the snapshot. *)
Lemma fetch_status_300_is_a_snapshot :
  probe_open env_feed_300 /\
  http_get env_feed_300 feed_url = Ok (mkResponse 300 (Ok sample_snapshot)) /\
  ~ (200 <= 300 < 300) /\
  fst (fst (fetch_adsb env_feed_300 w0)) = Ok sample_snapshot /\
  fst (fst (fetch_adsb env_feed_300 w0)) <> Ok PNone.
Proof.
  split; [split; reflexivity|]. split; [reflexivity|]. split; [lia|].
  split; [reflexivity|]. vm_compute. discriminate.
Qed.

(** X2, on a sample world: of the three entries of rx1 the first is stored,
    the second has no Doppler, and the third is never reached. *)
Lemma stored_calls_stop_at_first_bad_entry_witness :
  got_snapshot (fst (fst (fetch_adsb env_rx1_second_bad w0))) = true /\
  In rx1 RADARS /\
  query_outcome config_repr env_rx1_second_bad rx1
  = Ok (PDict [("A", sample_meas); ("B", PDict [("delay", PFloat (1 # 2))]);
               ("C", sample_meas)]) /\
  adds_of "rx1"
    (snd (loop_iteration series_add_measurement config_repr env_rx1_second_bad w0))
  = [(PFloat (123 # 10), PFloat (-45 # 10))] /\
  exists n,
    Forall2 carries
      (firstn n [sample_meas; PDict [("delay", PFloat (1 # 2))]; sample_meas])
      (adds_of (rid rx1)
         (snd (loop_iteration series_add_measurement config_repr
                 env_rx1_second_bad w0))) /\
    (n = 3%nat \/
     exists meas,
       nth_error [sample_meas; PDict [("delay", PFloat (1 # 2))]; sample_meas] n
       = Some meas /\
       forall dp, ~ carries meas dp).
Proof.
  split; [reflexivity|]. split; [left; reflexivity|].
  split; [reflexivity|]. split; [reflexivity|].
  exact (stored_calls_stop_at_first_bad_entry SeriesStore series_add_measurement
           config_repr env_rx1_second_bad w0 rx1 _ eq_refl (or_introl eq_refl) eq_refl
           (series_store_accepts rx1 (or_introl eq_refl))).
Defined.

(** X3, on a sample world: the geometry service answers rx2 with a list. *)
Lemma failed_turn_stores_nothing_witness :
  got_snapshot (fst (fst (fetch_adsb env_rx2_list w0))) = true /\
  In rx2 RADARS /\
  query_outcome config_repr env_rx2_list rx2 = Ok (PList [sample_meas]) /\
  adds_of (rid rx2)
    (snd (loop_iteration series_add_measurement config_repr env_rx2_list w0)) = [] /\
  In (ERROR, "Error processing radar rx2: 'list' object has no attribute 'values'")
    (logs (snd (loop_iteration series_add_measurement config_repr env_rx2_list w0))).
Proof.
  split; [reflexivity|]. split; [right; left; reflexivity|]. split; [reflexivity|].
  destruct (failed_turn_stores_nothing SeriesStore series_add_measurement config_repr
              env_rx2_list w0 rx2 eq_refl (or_intror (or_introl eq_refl)))
    as [Hexact _].
  apply (Hexact (mkExn AttributeError "'list' object has no attribute 'values'")).
  right. right. exists (PList [sample_meas]). split; reflexivity.
Defined.

(** X8, on a sample world: nothing listens on localhost:5001. *)
Lemma closed_probe_skips_request_witness :
  ~ probe_open env_port_closed /\
  fst (fst (fetch_adsb env_port_closed w0)) = Ok PNone /\
  http_gets (snd (fetch_adsb env_port_closed w0)) = [] /\
  last (logs (snd (fetch_adsb env_port_closed w0))) (INFO, EmptyString)
  = (ERROR, msg_port_closed).
Proof.
  assert (Hclosed : ~ probe_open env_port_closed).
  { intros [_ H]. discriminate H. }
  split; [exact Hclosed|].
  exact (closed_probe_skips_request SeriesStore env_port_closed w0 Hclosed).
Defined.

(** X9, on a sample world: the feed answers 200 with the body [null]. *)
Lemma null_body_skips_cycle_witness :
  probe_open env_feed_null /\
  http_get env_feed_null feed_url = Ok (mkResponse 200 (Ok PNone)) /\
  prints (snd (loop_iteration series_add_measurement config_repr env_feed_null w0)) = [] /\
  adds (snd (loop_iteration series_add_measurement config_repr env_feed_null w0)) = [] /\
  last (logs (snd (loop_iteration series_add_measurement config_repr env_feed_null w0)))
    (INFO, EmptyString)
  = (WARNING, msg_skip).
Proof.
  assert (Hopen : probe_open env_feed_null) by (split; reflexivity).
  split; [exact Hopen|]. split; [reflexivity|].
  destruct (null_body_skips_cycle SeriesStore series_add_measurement config_repr
              env_feed_null w0 (mkResponse 200 (Ok PNone)) Hopen eq_refl)
    as (Hl & Hp & Ha & _); [simpl; lia|reflexivity|].
  split; [exact Hp|]. split; [exact Ha|]. rewrite Hl. reflexivity.
Defined.

(* ------------------------------------------------------------------ *)
(** ** Properties of the synthetic feed *)

Section ServerTheory.

Variable math_pi : Q.
Variable math_cos : Q -> Q.
Variable math_sin : Q -> Q.

(** C8.  A GET of the feed path is answered with status 200 and a JSON
    body that has a top-level field [now], holding the epoch seconds read
    from the clock, and a top-level field [aircraft], holding a list whose
    records have exactly the fields hex, lat, lon, alt_baro, alt_geom,
    flight and seen_pos. *)
Theorem feed_response_shape :
  forall now : Q,
  exists body aircraft,
    Server.app_get math_pi math_cos math_sin "/data/aircraft.json" now
      = Server.mkReply 200 (Some body) /\
    Server.keys body = Some ["now"; "aircraft"] /\
    py_getitem body "now" = Ok (PFloat now) /\
    py_getitem body "aircraft" = Ok (PList aircraft) /\
    Forall (fun r => Server.keys r = Some Server.aircraft_fields) aircraft.
Proof.
  intros now. do 2 eexists.
  split; [reflexivity|]. split; [reflexivity|]. split; [reflexivity|].
  split; [reflexivity|]. repeat constructor.
Qed.

(** C9.  Whatever the request time, the aircraft list of the synthetic feed
    holds exactly one aircraft, whose hex ("AEF123"), alt_baro (30000),
    alt_geom (alt_baro + 100), flight ("SYN001  ") and seen_pos (0) are
    constants: only lat, lon and now change from one response to the
    next. *)
Theorem synthetic_aircraft_constants :
  forall now : Q,
  exists lat lon : Q,
    Server.serve_synthetic_adsb math_pi math_cos math_sin now
    = PDict [ ("now", PFloat now);
              ("aircraft",
               PList [ PDict [ ("hex", PStr "AEF123");
                               ("lat", PFloat lat);
                               ("lon", PFloat lon);
                               ("alt_baro", PInt 30000);
                               ("alt_geom", PInt (30000 + 100));
                               ("flight", PStr "SYN001  ");
                               ("seen_pos", PInt 0) ] ]) ].
Proof.
  intros now. do 2 eexists. reflexivity.
Qed.

End ServerTheory.
